(** * Calendar Agent web client: sync status, reconnecting socket, event list

    A shallow embedding of the browser client of the calendar agent:

    - [web/src/app/page.tsx]: the [Home] component, with the WebSocket
      connection manager of its mount effect ([connectWebSocket] and the
      socket handlers) and its handlers [fetchEvents], [handleSync],
      [handleCommand], [handleDateRangeChange], [handleDeleteEvent] and
      [handleCreateEvent];
    - [web/src/components/EventList.tsx]: the filter and sort of the event
      list.

    JavaScript values that reach the code from outside (parsed frames, API
    responses) are kept untyped, as they are at run time.  Asynchronous
    handlers are cut at their [await]: a start function that runs up to the
    request, and a resume function that runs from the response, with the
    variables the closure captured passed explicitly. *)

From Stdlib Require Import ZArith List String Ascii Bool Lia.
From Stdlib Require Import Permutation Sorted.
Import ListNotations.

Set Warnings "-register-all".

Local Open Scope string_scope.
Local Open Scope list_scope.
Local Open Scope Z_scope.

(** ** JavaScript values *)

Module Js.

(** The values [JSON.parse] produces, and [undefined], which property access
    produces.  Numbers are the integers: the code only tests them against
    zero. *)
Inductive value : Type :=
| Undefined
| Null
| Bool (b : bool)
| Num (n : Z)
| Str (s : string)
| Arr (items : list value)
| Obj (props : list (string * value)).

(** [ToBoolean]. *)
Definition truthy (v : value) : bool :=
  match v with
  | Undefined | Null => false
  | Bool b => b
  | Num n => negb (n =? 0)
  | Str s => negb (s =? "")%string
  | Arr _ | Obj _ => true
  end.

(** [a || b]. *)
Definition or (a b : value) : value := if truthy a then a else b.

(** The own property [k] of an object; [props] lists each key once. *)
Fixpoint own (props : list (string * value)) (k : string) : value :=
  match props with
  | [] => Undefined
  | (k', v) :: rest => if (k' =? k)%string then v else own rest k
  end.

(** [v.k] for the property names the client reads ([type], [data],
    [success], ...; none of them lives on a prototype): [None] is the
    [TypeError] of reading a property of [undefined] or [null]. *)
Definition get (v : value) (k : string) : option value :=
  match v with
  | Undefined | Null => None
  | Obj props => Some (own props k)
  | _ => Some Undefined
  end.

(** [v?.k]. *)
Definition get_opt (v : value) (k : string) : value :=
  match get v k with
  | Some x => x
  | None => Undefined
  end.

(** [v === 'literal']. *)
Definition is_str (v : value) (lit : string) : bool :=
  match v with
  | Str s => (s =? lit)%string
  | _ => false
  end.

Definition defined (v : value) : Prop := v <> Undefined /\ v <> Null.

(** A property that is not there reads as [undefined], also through a
    missing or non-object parent. *)
Definition absent (p : value) (k : string) : Prop :=
  get_opt p k = Undefined.

End Js.

(** ** Types of [@/lib/api] *)

Module Api.

Record Event : Type := {
  id : string;
  title : string;
  description : option string;
  start_time : string;
  end_time : string;
  location : option string;
  participants : list string
}.

(** At run time the fields hold whatever the [||] of the reducer let
    through, so they are JavaScript values. *)
Record SyncStatus : Type := {
  success : Js.value;
  new_events : Js.value;
  updated_events : Js.value;
  deleted_events : Js.value;
  errors : Js.value
}.

Inductive DateRange : Type := day | week | month.

(** What a rejected promise carries: an [Error] with its message, or some
    other thrown value ([err instanceof Error] is false). *)
Inductive Thrown : Type :=
| IsError (message : string)
| NotError.

End Api.

Import Api.

(** ** The host: [Date] and date-fns

    Instants are milliseconds since the epoch.  What the host's time zone and
    the date-fns functions compute is taken as given; [Utc] below is one
    host. *)

Class Host : Type := {
  (** [new Date(s).getTime()]; [None] is the Invalid Date. *)
  Date_parse : string -> option Z;
  getFullYear : Z -> Z;
  getMonth : Z -> Z;
  getDate : Z -> Z;
  (** [d.setHours(0, 0, 0, 0)] and [d.setHours(23, 59, 59, 999)]. *)
  startOfDay : Z -> Z;
  endOfDay : Z -> Z;
  startOfWeek : Z -> Z;
  endOfWeek : Z -> Z;
  startOfMonth : Z -> Z;
  endOfMonth : Z -> Z
}.

(** What these functions are for: two instants have the same year, month
    and day of the month exactly when they are in the same day, and the
    week and the month of an instant run from their start to their end.
    In particular no start comes after its end, so the [RangeError] of
    [isWithinInterval] does not arise. *)
Class HostLaws {H : Host} : Prop := {
  day_law : forall a b,
    (getFullYear a = getFullYear b /\ getMonth a = getMonth b
     /\ getDate a = getDate b)
    <-> startOfDay a = startOfDay b;
  week_law : forall d t,
    startOfWeek d <= t <= endOfWeek d <-> startOfWeek t = startOfWeek d;
  month_law : forall d t,
    startOfMonth d <= t <= endOfMonth d <-> startOfMonth t = startOfMonth d
}.

(** [isWithinInterval(date, { start, end })] of date-fns on an interval
    whose start is not after its end: both ends included. *)
Definition isWithinInterval (t start_ end_ : Z) : bool :=
  (start_ <=? t) && (t <=? end_).

(** One host: a browser whose time zone is UTC, with the proleptic Gregorian
    calendar, weeks that start on Sunday (the date-fns default) and a [Date]
    constructor that reads [YYYY-MM-DDTHH:MM:SSZ]. *)

Module Utc.

Definition msPerDay : Z := 86400000.

Definition dayNumber (t : Z) : Z := t / msPerDay.

Definition civil (z0 : Z) : Z * Z * Z :=
  let z := z0 + 719468 in
  let era := z / 146097 in
  let doe := z - era * 146097 in
  let yoe := (doe - doe / 1460 + doe / 36524 - doe / 146096) / 365 in
  let doy := doe - (365 * yoe + yoe / 4 - yoe / 100) in
  let mp := (5 * doy + 2) / 153 in
  let d := doy - (153 * mp + 2) / 5 + 1 in
  let m := if mp <? 10 then mp + 3 else mp - 9 in
  (yoe + era * 400 + (if m <=? 2 then 1 else 0), m, d).

Definition daysFromCivil (y0 m d : Z) : Z :=
  let y := if m <=? 2 then y0 - 1 else y0 in
  let era := y / 400 in
  let yoe := y - era * 400 in
  let doy := (153 * (if 2 <? m then m - 3 else m + 9) + 2) / 5 + d - 1 in
  era * 146097 + (yoe * 365 + yoe / 4 - yoe / 100 + doy) - 719468.

Definition leap (y : Z) : bool :=
  ((y mod 4 =? 0) && negb (y mod 100 =? 0)) || (y mod 400 =? 0).

Definition daysInMonth (y m : Z) : Z :=
  if m =? 2 then (if leap y then 29 else 28)
  else if (m =? 4) || (m =? 6) || (m =? 9) || (m =? 11) then 30
  else 31.

Definition year (t : Z) : Z := fst (fst (civil (dayNumber t))).
Definition monthOfYear (t : Z) : Z := snd (fst (civil (dayNumber t))).
Definition dayOfMonth (t : Z) : Z := snd (civil (dayNumber t)).

(** 1 January 1970 was a Thursday; Sunday is day 0. *)
Definition weekday (t : Z) : Z := (dayNumber t + 4) mod 7.

Definition midnight (t : Z) : Z := dayNumber t * msPerDay.
Definition sunday (t : Z) : Z := (dayNumber t - weekday t) * msPerDay.
Definition firstOfMonth (t : Z) : Z :=
  daysFromCivil (year t) (monthOfYear t) 1 * msPerDay.

Definition digit (c : ascii) : option Z :=
  let n := Z.of_nat (nat_of_ascii c) in
  if (48 <=? n) && (n <=? 57) then Some (n - 48) else None.

Fixpoint number (acc : Z) (cs : list ascii) : option Z :=
  match cs with
  | [] => Some acc
  | c :: rest =>
      match digit c with
      | Some d => number (acc * 10 + d) rest
      | None => None
      end
  end.

Definition field (cs : list ascii) (lo hi : Z) : option Z :=
  match number 0 cs with
  | Some n => if (lo <=? n) && (n <=? hi) then Some n else None
  | None => None
  end.

Definition parse (s : string) : option Z :=
  match list_ascii_of_string s with
  | [y1; y2; y3; y4; "-"; m1; m2; "-"; d1; d2; "T";
     h1; h2; ":"; i1; i2; ":"; s1; s2; "Z"]%char =>
      match field [y1; y2; y3; y4] 0 9999, field [m1; m2] 1 12 with
      | Some y, Some m =>
          match field [d1; d2] 1 (daysInMonth y m), field [h1; h2] 0 23,
                field [i1; i2] 0 59, field [s1; s2] 0 59 with
          | Some d, Some h, Some i, Some sec =>
              Some (daysFromCivil y m d * msPerDay
                    + ((h * 60 + i) * 60 + sec) * 1000)
          | _, _, _, _ => None
          end
      | _, _ => None
      end
  | _ => None
  end.

#[export] Instance host : Host := {|
  Date_parse := parse;
  getFullYear := year;
  getMonth := fun t => monthOfYear t - 1;
  getDate := dayOfMonth;
  startOfDay := midnight;
  endOfDay := fun t => midnight t + msPerDay - 1;
  startOfWeek := sunday;
  endOfWeek := fun t => sunday t + 7 * msPerDay - 1;
  startOfMonth := firstOfMonth;
  endOfMonth := fun t =>
    firstOfMonth t + daysInMonth (year t) (monthOfYear t) * msPerDay - 1
|}.
End Utc.

(** ** [EventList.tsx] *)

Module EventList.

Section WithHost.
Context {H : Host}.

(** The callback of [events.filter]. *)
Definition keep (date : Z) (dateRange : DateRange) (event : Event) : bool :=
  match Date_parse (start_time event) with
  | None =>
      (* every comparison with the NaN of an Invalid Date is false *)
      false
  | Some eventDate =>
      match dateRange with
      | day =>
          (getFullYear eventDate =? getFullYear date)
          && (getMonth eventDate =? getMonth date)
          && (getDate eventDate =? getDate date)
      | week =>
          let weekStart := startOfWeek date in
          let weekEnd := endOfWeek date in
          isWithinInterval eventDate weekStart weekEnd
      | month =>
          let monthStart := startOfMonth date in
          let monthEnd := endOfMonth date in
          isWithinInterval eventDate monthStart monthEnd
      end
  end.

(** The comparator of [.sort]: the difference of the two [getTime()]s.  A
    NaN result is read as [+0] by the sort. *)
Definition compareFn (a b : Event) : Z :=
  match Date_parse (start_time a), Date_parse (start_time b) with
  | Some ta, Some tb => ta - tb
  | _, _ => 0
  end.

(** [Array.prototype.sort] is stable: an element goes in front of the first
    one it does not compare greater than. *)
Fixpoint insert (cmp : Event -> Event -> Z) (x : Event) (l : list Event)
  : list Event :=
  match l with
  | [] => [x]
  | y :: rest =>
      if cmp x y <=? 0 then x :: y :: rest else y :: insert cmp x rest
  end.

Fixpoint sort (cmp : Event -> Event -> Z) (l : list Event) : list Event :=
  match l with
  | [] => []
  | x :: rest => insert cmp x (sort cmp rest)
  end.

Definition filteredEvents (events : list Event) (date : Z)
    (dateRange : DateRange) : list Event :=
  sort compareFn (filter (keep date dateRange) events).

(** *** What the claim calls the selected range *)

(** The instant [t] is in the calendar day, in the week, in the calendar
    month of the selected date. *)
Definition inSelectedRange (dateRange : DateRange) (date t : Z) : Prop :=
  match dateRange with
  | day => startOfDay t = startOfDay date
  | week => startOfWeek t = startOfWeek date
  | month => startOfMonth t = startOfMonth date
  end.

Definition startsWithin (dateRange : DateRange) (date : Z) (e : Event)
  : Prop :=
  exists t, Date_parse (start_time e) = Some t
            /\ inSelectedRange dateRange date t.

Definition startsNoLater (a b : Event) : Prop :=
  exists ta tb, Date_parse (start_time a) = Some ta
                /\ Date_parse (start_time b) = Some tb /\ ta <= tb.

Definition dated (e : Event) : Prop :=
  exists t, Date_parse (start_time e) = Some t.

End WithHost.
End EventList.

(** ** [page.tsx]: the [Home] component *)

Module Page.

(** [WebSocket.readyState]. *)
Inductive ReadyState : Type := CONNECTING | OPEN | CLOSING | CLOSED.

(** The call of [api] a [fetchEvents] is suspended at. *)
Inductive Request : Type :=
| getEventsForRange (startOfDay endOfDay : Z)
| getWeekEvents
| getMonthEvents.

(** An async handler suspended at its [await], with what its closure holds. *)
Inductive Pending : Type :=
| AwaitFetch (request : Request)
| AwaitSync
| AwaitDelete (eventId : string) (events : list Event)
| AwaitCommand
| AwaitCreate (selectedDate : Z) (selectedDateRange : DateRange).

(** What the awaited promise settles with. *)
Inductive Settled : Type :=
| Events (data : list Event)
| SyncData (data : Js.value)
| DeleteResponse (success : bool) (error : option string)
| CommandData (events : option (list Event))
| CreateResponse (success : bool) (error : option string)
| Rejected (err : Thrown).

(** The component: its React state, [wsRef], the variables of the mount
    effect's closure, and what the browser holds for it (the sockets it
    constructed, the frames it sent, the timeouts and promises pending).
    [mountDate] is the [selectedDate] of the first render, which the
    [fetchEvents] of the mount effect's closure keeps seeing. *)
Record Home : Type := {
  command : string;
  events : list Event;
  loading : bool;
  syncing : bool;
  error : option string;
  syncStatus : SyncStatus;
  selectedDate : Z;
  selectedDateRange : DateRange;
  eventFormOpen : bool;
  wsRef : option nat;
  reconnectTimeout : option nat;
  isConnecting : bool;
  reconnectAttempts : Z;
  mountDate : Z;
  sockets : list ReadyState;
  sent : list nat;
  timers : list (nat * Z);
  nextTimer : nat;
  deferred : list (Z * DateRange);
  inflight : list Pending
}.

Definition setCommand (v : string) (h : Home) : Home :=
  {| command := v; events := events h; loading := loading h;
     syncing := syncing h; error := error h; syncStatus := syncStatus h;
     selectedDate := selectedDate h;
     selectedDateRange := selectedDateRange h;
     eventFormOpen := eventFormOpen h; wsRef := wsRef h;
     reconnectTimeout := reconnectTimeout h;
     isConnecting := isConnecting h;
     reconnectAttempts := reconnectAttempts h; mountDate := mountDate h;
     sockets := sockets h; sent := sent h; timers := timers h;
     nextTimer := nextTimer h; deferred := deferred h;
     inflight := inflight h |}.

Definition setEvents (v : list Event) (h : Home) : Home :=
  {| command := command h; events := v; loading := loading h;
     syncing := syncing h; error := error h; syncStatus := syncStatus h;
     selectedDate := selectedDate h;
     selectedDateRange := selectedDateRange h;
     eventFormOpen := eventFormOpen h; wsRef := wsRef h;
     reconnectTimeout := reconnectTimeout h;
     isConnecting := isConnecting h;
     reconnectAttempts := reconnectAttempts h; mountDate := mountDate h;
     sockets := sockets h; sent := sent h; timers := timers h;
     nextTimer := nextTimer h; deferred := deferred h;
     inflight := inflight h |}.

Definition setLoading (v : bool) (h : Home) : Home :=
  {| command := command h; events := events h; loading := v;
     syncing := syncing h; error := error h; syncStatus := syncStatus h;
     selectedDate := selectedDate h;
     selectedDateRange := selectedDateRange h;
     eventFormOpen := eventFormOpen h; wsRef := wsRef h;
     reconnectTimeout := reconnectTimeout h;
     isConnecting := isConnecting h;
     reconnectAttempts := reconnectAttempts h; mountDate := mountDate h;
     sockets := sockets h; sent := sent h; timers := timers h;
     nextTimer := nextTimer h; deferred := deferred h;
     inflight := inflight h |}.

Definition setSyncing (v : bool) (h : Home) : Home :=
  {| command := command h; events := events h; loading := loading h;
     syncing := v; error := error h; syncStatus := syncStatus h;
     selectedDate := selectedDate h;
     selectedDateRange := selectedDateRange h;
     eventFormOpen := eventFormOpen h; wsRef := wsRef h;
     reconnectTimeout := reconnectTimeout h;
     isConnecting := isConnecting h;
     reconnectAttempts := reconnectAttempts h; mountDate := mountDate h;
     sockets := sockets h; sent := sent h; timers := timers h;
     nextTimer := nextTimer h; deferred := deferred h;
     inflight := inflight h |}.

Definition setError (v : option string) (h : Home) : Home :=
  {| command := command h; events := events h; loading := loading h;
     syncing := syncing h; error := v; syncStatus := syncStatus h;
     selectedDate := selectedDate h;
     selectedDateRange := selectedDateRange h;
     eventFormOpen := eventFormOpen h; wsRef := wsRef h;
     reconnectTimeout := reconnectTimeout h;
     isConnecting := isConnecting h;
     reconnectAttempts := reconnectAttempts h; mountDate := mountDate h;
     sockets := sockets h; sent := sent h; timers := timers h;
     nextTimer := nextTimer h; deferred := deferred h;
     inflight := inflight h |}.

Definition setSyncStatus (v : SyncStatus) (h : Home) : Home :=
  {| command := command h; events := events h; loading := loading h;
     syncing := syncing h; error := error h; syncStatus := v;
     selectedDate := selectedDate h;
     selectedDateRange := selectedDateRange h;
     eventFormOpen := eventFormOpen h; wsRef := wsRef h;
     reconnectTimeout := reconnectTimeout h;
     isConnecting := isConnecting h;
     reconnectAttempts := reconnectAttempts h; mountDate := mountDate h;
     sockets := sockets h; sent := sent h; timers := timers h;
     nextTimer := nextTimer h; deferred := deferred h;
     inflight := inflight h |}.

Definition setSelectedDate (v : Z) (h : Home) : Home :=
  {| command := command h; events := events h; loading := loading h;
     syncing := syncing h; error := error h; syncStatus := syncStatus h;
     selectedDate := v; selectedDateRange := selectedDateRange h;
     eventFormOpen := eventFormOpen h; wsRef := wsRef h;
     reconnectTimeout := reconnectTimeout h;
     isConnecting := isConnecting h;
     reconnectAttempts := reconnectAttempts h; mountDate := mountDate h;
     sockets := sockets h; sent := sent h; timers := timers h;
     nextTimer := nextTimer h; deferred := deferred h;
     inflight := inflight h |}.

Definition setSelectedDateRange (v : DateRange) (h : Home) : Home :=
  {| command := command h; events := events h; loading := loading h;
     syncing := syncing h; error := error h; syncStatus := syncStatus h;
     selectedDate := selectedDate h; selectedDateRange := v;
     eventFormOpen := eventFormOpen h; wsRef := wsRef h;
     reconnectTimeout := reconnectTimeout h;
     isConnecting := isConnecting h;
     reconnectAttempts := reconnectAttempts h; mountDate := mountDate h;
     sockets := sockets h; sent := sent h; timers := timers h;
     nextTimer := nextTimer h; deferred := deferred h;
     inflight := inflight h |}.

Definition setEventFormOpen (v : bool) (h : Home) : Home :=
  {| command := command h; events := events h; loading := loading h;
     syncing := syncing h; error := error h; syncStatus := syncStatus h;
     selectedDate := selectedDate h;
     selectedDateRange := selectedDateRange h; eventFormOpen := v;
     wsRef := wsRef h; reconnectTimeout := reconnectTimeout h;
     isConnecting := isConnecting h;
     reconnectAttempts := reconnectAttempts h; mountDate := mountDate h;
     sockets := sockets h; sent := sent h; timers := timers h;
     nextTimer := nextTimer h; deferred := deferred h;
     inflight := inflight h |}.

Definition set_wsRef (v : option nat) (h : Home) : Home :=
  {| command := command h; events := events h; loading := loading h;
     syncing := syncing h; error := error h; syncStatus := syncStatus h;
     selectedDate := selectedDate h;
     selectedDateRange := selectedDateRange h;
     eventFormOpen := eventFormOpen h; wsRef := v;
     reconnectTimeout := reconnectTimeout h;
     isConnecting := isConnecting h;
     reconnectAttempts := reconnectAttempts h; mountDate := mountDate h;
     sockets := sockets h; sent := sent h; timers := timers h;
     nextTimer := nextTimer h; deferred := deferred h;
     inflight := inflight h |}.

Definition set_reconnectTimeout (v : option nat) (h : Home) : Home :=
  {| command := command h; events := events h; loading := loading h;
     syncing := syncing h; error := error h; syncStatus := syncStatus h;
     selectedDate := selectedDate h;
     selectedDateRange := selectedDateRange h;
     eventFormOpen := eventFormOpen h; wsRef := wsRef h;
     reconnectTimeout := v; isConnecting := isConnecting h;
     reconnectAttempts := reconnectAttempts h; mountDate := mountDate h;
     sockets := sockets h; sent := sent h; timers := timers h;
     nextTimer := nextTimer h; deferred := deferred h;
     inflight := inflight h |}.

Definition set_isConnecting (v : bool) (h : Home) : Home :=
  {| command := command h; events := events h; loading := loading h;
     syncing := syncing h; error := error h; syncStatus := syncStatus h;
     selectedDate := selectedDate h;
     selectedDateRange := selectedDateRange h;
     eventFormOpen := eventFormOpen h; wsRef := wsRef h;
     reconnectTimeout := reconnectTimeout h; isConnecting := v;
     reconnectAttempts := reconnectAttempts h; mountDate := mountDate h;
     sockets := sockets h; sent := sent h; timers := timers h;
     nextTimer := nextTimer h; deferred := deferred h;
     inflight := inflight h |}.

Definition set_reconnectAttempts (v : Z) (h : Home) : Home :=
  {| command := command h; events := events h; loading := loading h;
     syncing := syncing h; error := error h; syncStatus := syncStatus h;
     selectedDate := selectedDate h;
     selectedDateRange := selectedDateRange h;
     eventFormOpen := eventFormOpen h; wsRef := wsRef h;
     reconnectTimeout := reconnectTimeout h;
     isConnecting := isConnecting h; reconnectAttempts := v;
     mountDate := mountDate h; sockets := sockets h; sent := sent h;
     timers := timers h; nextTimer := nextTimer h; deferred := deferred h;
     inflight := inflight h |}.

Definition set_sockets (v : list ReadyState) (h : Home) : Home :=
  {| command := command h; events := events h; loading := loading h;
     syncing := syncing h; error := error h; syncStatus := syncStatus h;
     selectedDate := selectedDate h;
     selectedDateRange := selectedDateRange h;
     eventFormOpen := eventFormOpen h; wsRef := wsRef h;
     reconnectTimeout := reconnectTimeout h;
     isConnecting := isConnecting h;
     reconnectAttempts := reconnectAttempts h; mountDate := mountDate h;
     sockets := v; sent := sent h; timers := timers h;
     nextTimer := nextTimer h; deferred := deferred h;
     inflight := inflight h |}.

Definition set_sent (v : list nat) (h : Home) : Home :=
  {| command := command h; events := events h; loading := loading h;
     syncing := syncing h; error := error h; syncStatus := syncStatus h;
     selectedDate := selectedDate h;
     selectedDateRange := selectedDateRange h;
     eventFormOpen := eventFormOpen h; wsRef := wsRef h;
     reconnectTimeout := reconnectTimeout h;
     isConnecting := isConnecting h;
     reconnectAttempts := reconnectAttempts h; mountDate := mountDate h;
     sockets := sockets h; sent := v; timers := timers h;
     nextTimer := nextTimer h; deferred := deferred h;
     inflight := inflight h |}.

Definition set_timers (v : list (nat * Z)) (h : Home) : Home :=
  {| command := command h; events := events h; loading := loading h;
     syncing := syncing h; error := error h; syncStatus := syncStatus h;
     selectedDate := selectedDate h;
     selectedDateRange := selectedDateRange h;
     eventFormOpen := eventFormOpen h; wsRef := wsRef h;
     reconnectTimeout := reconnectTimeout h;
     isConnecting := isConnecting h;
     reconnectAttempts := reconnectAttempts h; mountDate := mountDate h;
     sockets := sockets h; sent := sent h; timers := v;
     nextTimer := nextTimer h; deferred := deferred h;
     inflight := inflight h |}.

Definition set_nextTimer (v : nat) (h : Home) : Home :=
  {| command := command h; events := events h; loading := loading h;
     syncing := syncing h; error := error h; syncStatus := syncStatus h;
     selectedDate := selectedDate h;
     selectedDateRange := selectedDateRange h;
     eventFormOpen := eventFormOpen h; wsRef := wsRef h;
     reconnectTimeout := reconnectTimeout h;
     isConnecting := isConnecting h;
     reconnectAttempts := reconnectAttempts h; mountDate := mountDate h;
     sockets := sockets h; sent := sent h; timers := timers h;
     nextTimer := v; deferred := deferred h; inflight := inflight h |}.

Definition set_deferred (v : list (Z * DateRange)) (h : Home) : Home :=
  {| command := command h; events := events h; loading := loading h;
     syncing := syncing h; error := error h; syncStatus := syncStatus h;
     selectedDate := selectedDate h;
     selectedDateRange := selectedDateRange h;
     eventFormOpen := eventFormOpen h; wsRef := wsRef h;
     reconnectTimeout := reconnectTimeout h;
     isConnecting := isConnecting h;
     reconnectAttempts := reconnectAttempts h; mountDate := mountDate h;
     sockets := sockets h; sent := sent h; timers := timers h;
     nextTimer := nextTimer h; deferred := v; inflight := inflight h |}.

Definition set_inflight (v : list Pending) (h : Home) : Home :=
  {| command := command h; events := events h; loading := loading h;
     syncing := syncing h; error := error h; syncStatus := syncStatus h;
     selectedDate := selectedDate h;
     selectedDateRange := selectedDateRange h;
     eventFormOpen := eventFormOpen h; wsRef := wsRef h;
     reconnectTimeout := reconnectTimeout h;
     isConnecting := isConnecting h;
     reconnectAttempts := reconnectAttempts h; mountDate := mountDate h;
     sockets := sockets h; sent := sent h; timers := timers h;
     nextTimer := nextTimer h; deferred := deferred h; inflight := v |}.

Definition maxReconnectAttempts : Z := 5.

(** The state of the first render. *)
Definition initial (now : Z) : Home :=
  {| command := ""; events := []; loading := false; syncing := false;
     error := None;
     syncStatus :=
       {| success := Js.Bool false; new_events := Js.Num 0;
          updated_events := Js.Num 0; deleted_events := Js.Num 0;
          errors := Js.Arr [] |};
     selectedDate := now; selectedDateRange := week;
     eventFormOpen := false; wsRef := None;
     reconnectTimeout := None; isConnecting := false;
     reconnectAttempts := 0; mountDate := now; sockets := []; sent := [];
     timers := []; nextTimer := 0%nat; deferred := []; inflight := [] |}.

(** *** The browser side *)

Definition readyState (k : nat) (h : Home) : ReadyState :=
  nth k (sockets h) CLOSED.

Fixpoint setReady (k : nat) (r : ReadyState) (l : list ReadyState)
  : list ReadyState :=
  match l, k with
  | [], _ => []
  | _ :: rest, O => r :: rest
  | x :: rest, S k' => x :: setReady k' r rest
  end.

(** [ws.close()]. *)
Definition close (k : nat) (h : Home) : Home :=
  match readyState k h with
  | CONNECTING | OPEN => set_sockets (setReady k CLOSING (sockets h)) h
  | CLOSING | CLOSED => h
  end.

(** [ws.send(JSON.stringify({ type: 'ping' }))]. *)
Definition sendPing (k : nat) (h : Home) : Home :=
  set_sent (sent h ++ [k]) h.

(** [setTimeout(() => connectWebSocket(useFallbackPath), delay)]. *)
Definition setTimeout (delay : Z) (h : Home) : nat * Home :=
  (nextTimer h,
   set_nextTimer (S (nextTimer h))
     (set_timers (timers h ++ [(nextTimer h, delay)]) h)).

Fixpoint removeAt {A : Type} (i : nat) (l : list A) : list A :=
  match l, i with
  | [], _ => []
  | _ :: rest, O => rest
  | x :: rest, S i' => x :: removeAt i' rest
  end.

Fixpoint takeTimer (handle : nat) (l : list (nat * Z))
  : option (list (nat * Z)) :=
  match l with
  | [] => None
  | (h', d) :: rest =>
      if Nat.eqb h' handle then Some rest
      else match takeTimer handle rest with
           | Some rest' => Some ((h', d) :: rest')
           | None => None
           end
  end.

(** *** The connection manager (the mount effect)

    The page is followed while it is mounted; the cleanup the effect
    returns, which runs at unmount, is not part of it. *)

(** The block shared by [onclose] and the two [catch]es of
    [connectWebSocket]:
    [reconnectAttempts++; delay = Math.min(1000 * Math.pow(2,
    reconnectAttempts), 10000); reconnectTimeout = setTimeout(...)]. *)
Definition planReconnect (h : Home) : Home :=
  let h := set_reconnectAttempts (reconnectAttempts h + 1) h in
  let delay := Z.min (1000 * 2 ^ reconnectAttempts h) 10000 in
  let (handle, h) := setTimeout delay h in
  set_reconnectTimeout (Some handle) h.

(** [connectWebSocket]; [throws] tells whether [new WebSocket(fullUrl)]
    throws.  The handlers it installs on the new socket are [onopen],
    [onclose], [onerror] and [onmessage] below.  Nothing else in its outer
    [try] can throw, so the outer [catch] is not reached. *)
Definition connectWebSocket (throws : bool) (h : Home) : Home :=
  if isConnecting h || (maxReconnectAttempts <=? reconnectAttempts h) then h
  else
    let h := set_isConnecting true h in
    let h := match wsRef h with
             | Some k => set_wsRef None (close k h)
             | None => h
             end in
    if throws then
      let h := set_isConnecting false h in
      if reconnectAttempts h <? maxReconnectAttempts then planReconnect h
      else h
    else
      let ws := List.length (sockets h) in
      set_wsRef (Some ws) (set_sockets (sockets h ++ [CONNECTING]) h).

Definition onopen (ws : nat) (h : Home) : Home :=
  let h := set_isConnecting false h in
  let h := set_reconnectAttempts 0 h in
  match readyState ws h with
  | OPEN => sendPing ws h
  | _ => h
  end.

Definition onclose (h : Home) : Home :=
  let h := set_isConnecting false h in
  let h := set_wsRef None h in
  if reconnectAttempts h <? maxReconnectAttempts then planReconnect h
  else h.

Definition onerror (h : Home) : Home :=
  set_isConnecting false h.

(** The callback of [setInterval(..., 30000)]. *)
Definition heartbeat (h : Home) : Home :=
  match wsRef h with
  | Some k =>
      match readyState k h with
      | OPEN => sendPing k h
      | _ => h
      end
  | None => h
  end.

(** *** The React handlers *)

(** [err instanceof Error ? err.message : fallback]. *)
Definition messageOr (err : Thrown) (fallback : string) : string :=
  match err with
  | IsError message => message
  | NotError => fallback
  end.

(** The object literal that [onmessage] (on [data?.data]) and [handleSync]
    (on [data]) hand to [setSyncStatus]:
    [{ success: p?.success || false, new_events: p?.new_events || 0, ... }]. *)
Definition withDefaults (p : Js.value) : SyncStatus :=
  {| success := Js.or (Js.get_opt p "success") (Js.Bool false);
     new_events := Js.or (Js.get_opt p "new_events") (Js.Num 0);
     updated_events := Js.or (Js.get_opt p "updated_events") (Js.Num 0);
     deleted_events := Js.or (Js.get_opt p "deleted_events") (Js.Num 0);
     errors := Js.or (Js.get_opt p "errors") (Js.Arr []) |}.

Definition await (p : Pending) (h : Home) : Home :=
  set_inflight (inflight h ++ [p]) h.

Section WithHost.
Context {H : Host}.

(** The [switch] of [fetchEvents], on the selection its closure holds. *)
Definition request (selectedDate : Z) (selectedDateRange : DateRange)
  : Request :=
  match selectedDateRange with
  | day => getEventsForRange (startOfDay selectedDate) (endOfDay selectedDate)
  | week => getWeekEvents
  | month => getMonthEvents
  end.

(** [fetchEvents] up to its [await]. *)
Definition fetchEvents (selectedDate : Z) (selectedDateRange : DateRange)
    (h : Home) : Home :=
  let h := setLoading true h in
  await (AwaitFetch (request selectedDate selectedDateRange)) h.

(** [fetchEvents] from its [await] on. *)
Definition fetchEvents_resume (r : Settled) (h : Home) : Home :=
  match r with
  | Rejected apiError =>
      let h :=
        setError
          (Some (messageOr apiError "Failed to fetch events from server")) h in
      let h := setEvents [] h in
      setLoading false h
  | Events data =>
      let h := setEvents data h in
      setLoading false h
  | _ => h
  end.

(** [ws.onmessage]; [frame] is what [JSON.parse(event.data)] gives, [None]
    for its [SyntaxError].  Every exception is caught and logged.  The
    [fetchEvents] called here is the one of the first render. *)
Definition onmessage (frame : option Js.value) (h : Home) : Home :=
  match frame with
  | None => h
  | Some data =>
      match Js.get data "type" with
      | None => h
      | Some type =>
          if Js.is_str type "connection_established" then h
          else if Js.is_str type "sync_complete" then
            let h := setSyncStatus (withDefaults (Js.get_opt data "data")) h in
            let h := setSyncing false h in
            fetchEvents (mountDate h) week h
          else if Js.is_str type "pong" then h
          else h
      end
  end.

(** [handleSync] up to its [await]. *)
Definition handleSync (h : Home) : Home :=
  let h := setSyncing true h in
  let h := setError None h in
  await AwaitSync h.

(** [handleSync] from its [await] on. *)
Definition handleSync_resume (r : Settled) (h : Home) : Home :=
  match r with
  | SyncData data => setSyncStatus (withDefaults data) h
  | Rejected err =>
      let h := setError (Some (messageOr err "Sync failed")) h in
      let h :=
        setSyncStatus
          {| success := Js.Bool false; new_events := Js.Num 0;
             updated_events := Js.Num 0; deleted_events := Js.Num 0;
             errors :=
               Js.Arr [Js.Str ("Sync failed: "
                               ++ messageOr err "Unknown error")] |} h in
      setSyncing false h
  | _ => h
  end.

(** [handleDateRangeChange]: the [fetchEvents] it defers is the one of the
    render it was clicked in, with that render's selection. *)
Definition handleDateRangeChange (range : DateRange) (h : Home) : Home :=
  let stale := (selectedDate h, selectedDateRange h) in
  let h := setSelectedDateRange range h in
  set_deferred (deferred h ++ [stale]) h.

(** [handleDeleteEvent] up to its [await]. *)
Definition handleDeleteEvent (eventId : string) (h : Home) : Home :=
  let h := setLoading true h in
  await (AwaitDelete eventId (events h)) h.

(** [handleDeleteEvent] from its [await] on; [events] is the array its
    closure holds. *)
Definition handleDeleteEvent_resume (eventId : string) (events : list Event)
    (r : Settled) (h : Home) : Home :=
  match r with
  | DeleteResponse true _ =>
      let h :=
        setEvents
          (filter (fun event => negb (id event =? eventId)%string) events) h in
      let h := setError None h in
      setLoading false h
  | DeleteResponse false error =>
      let shown :=
        match error with
        | Some e => if (e =? "")%string then "Failed to delete event" else e
        | None => "Failed to delete event"
        end in
      let h := setError (Some shown) h in
      setLoading false h
  | Rejected err =>
      let h := setError (Some (messageOr err "Failed to delete event")) h in
      setLoading false h
  | _ => h
  end.

(** The code points [String.prototype.trim] strips: the WhiteSpace and
    LineTerminator productions of ECMAScript, that is TAB, LF, VT, FF, CR,
    SPACE, NO-BREAK SPACE, ZERO WIDTH NO-BREAK SPACE (U+FEFF), LINE and
    PARAGRAPH SEPARATOR (U+2028, U+2029) and the other space separators
    of Unicode (U+1680, U+2000 to U+200A, U+202F, U+205F, U+3000). *)
Definition whitespace (codePoint : Z) : bool :=
  ((9 <=? codePoint) && (codePoint <=? 13))
  || (codePoint =? 32) || (codePoint =? 160) || (codePoint =? 5760)
  || ((8192 <=? codePoint) && (codePoint <=? 8202))
  || (codePoint =? 8232) || (codePoint =? 8233) || (codePoint =? 8239)
  || (codePoint =? 8287) || (codePoint =? 12288) || (codePoint =? 65279).

Definition byte (c : ascii) : Z := Z.of_N (N_of_ascii c).

(** The bytes [10xxxxxx] that follow the first byte of a code point. *)
Definition continuation (b : Z) : bool := (128 <=? b) && (b <? 192).

(** [trimStart()].  A string is held as its UTF-8 bytes: a code point
    below U+0080 is one byte, one below U+0800 two bytes (the first from
    194 on), one below U+10000 three bytes (the first from 224 on); every
    code point [trim] strips is below U+10000. *)
Fixpoint trimStart (s : string) : string :=
  match s with
  | EmptyString => s
  | String c1 s1 =>
      if byte c1 <? 128 then
        if whitespace (byte c1) then trimStart s1 else s
      else
        match s1 with
        | EmptyString => s
        | String c2 s2 =>
            if byte c1 <? 224 then
              if (194 <=? byte c1) && continuation (byte c2)
                 && whitespace ((byte c1 - 192) * 64 + (byte c2 - 128))
              then trimStart s2 else s
            else
              match s2 with
              | EmptyString => s
              | String c3 s3 =>
                  let codePoint :=
                    (byte c1 - 224) * 4096 + (byte c2 - 128) * 64
                    + (byte c3 - 128) in
                  if (byte c1 <? 240) && continuation (byte c2)
                     && continuation (byte c3) && (2048 <=? codePoint)
                     && whitespace codePoint
                  then trimStart s3 else s
              end
        end
  end.

(** [!command.trim()]: the trimmed string is empty exactly when nothing
    is left of it behind its leading white space. *)
Definition blank (s : string) : bool :=
  (trimStart s =? "")%string.

(** [handleCommand] up to its [await]. *)
Definition handleCommand (h : Home) : Home :=
  if blank (command h) then h
  else
    let h := setLoading true h in
    let h := setError None h in
    await AwaitCommand h.

(** [handleCommand] from its [await] on. *)
Definition handleCommand_resume (r : Settled) (h : Home) : Home :=
  match r with
  | CommandData data =>
      let h := match data with
               | Some events => setEvents events h
               | None => h
               end in
      let h := setCommand "" h in
      let h := setError None h in
      setLoading false h
  | Rejected err =>
      let h := setError (Some (messageOr err "Command failed")) h in
      setLoading false h
  | _ => h
  end.

(** [handleCreateEvent] up to its [await]. *)
Definition handleCreateEvent (h : Home) : Home :=
  let h := setLoading true h in
  await (AwaitCreate (selectedDate h) (selectedDateRange h)) h.

(** [handleCreateEvent] from its [await] on; the [fetchEvents] it calls is
    the one of the render the form was submitted in. *)
Definition handleCreateEvent_resume (selectedDate : Z)
    (selectedDateRange : DateRange) (r : Settled) (h : Home) : Home :=
  match r with
  | CreateResponse true _ =>
      let h := setEventFormOpen false h in
      let h := fetchEvents selectedDate selectedDateRange h in
      let h := setError None h in
      setLoading false h
  | CreateResponse false error =>
      let shown :=
        match error with
        | Some e => if (e =? "")%string then "Failed to create event" else e
        | None => "Failed to create event"
        end in
      let h := setError (Some shown) h in
      setLoading false h
  | Rejected err =>
      let h := setError (Some (messageOr err "Failed to create event")) h in
      setLoading false h
  | _ => h
  end.

(** [{error && (<Paper ...>{error}</Paper>)}] of the render: the message
    is on the page when [error] is neither null nor the empty string. *)
Definition errorShown (h : Home) : bool :=
  match error h with
  | Some message => negb (message =? "")%string
  | None => false
  end.

(** The effect on [[selectedDate, selectedDateRange]]. *)
Definition selectionEffect (h : Home) : Home :=
  fetchEvents (selectedDate h) (selectedDateRange h) h.

(** *** The event loop *)

Definition DateRange_eqb (a b : DateRange) : bool :=
  match a, b with
  | day, day | week, week | month, month => true
  | _, _ => false
  end.

(** The first render and its two effects; [throws] as in
    [connectWebSocket]. *)
Definition mount (now : Z) (throws : bool) : Home :=
  let h := initial now in
  let h := connectWebSocket throws h in
  let h := fetchEvents (mountDate h) week h in
  selectionEffect h.

(** One task of the event loop. *)
Inductive Input : Type :=
| TimerFired (handle : nat) (throws : bool)
| SocketOpen (ws : nat)
| SocketError (ws : nat)
| SocketClose (ws : nat)
| SocketMessage (ws : nat) (frame : option Js.value)
| HeartbeatTick
| ClickSync
| SelectDate (date : Z)
| ClickRange (range : DateRange)
| DeferredFetch (i : nat)
| ClickDelete (eventId : string)
| TypeCommand (text : string)
| SendCommand
| OpenForm
| CloseForm
| SubmitForm
| Settle (i : nat) (r : Settled).

(** [None]: the browser cannot deliver this input in this state (no such
    timer, the socket is not in a state that fires the event, the button
    or the text field is disabled, the form is not open, no such promise). *)
Definition step (i : Input) (h : Home) : option Home :=
  match i with
  | TimerFired handle throws =>
      match takeTimer handle (timers h) with
      | Some rest => Some (connectWebSocket throws (set_timers rest h))
      | None => None
      end
  | SocketOpen ws =>
      match readyState ws h with
      | CONNECTING =>
          Some (onopen ws (set_sockets (setReady ws OPEN (sockets h)) h))
      | _ => None
      end
  | SocketError ws =>
      match readyState ws h with
      | CLOSED => None
      | _ => Some (onerror h)
      end
  | SocketClose ws =>
      match readyState ws h with
      | CLOSED => None
      | _ => Some (onclose (set_sockets (setReady ws CLOSED (sockets h)) h))
      end
  | SocketMessage ws frame =>
      match readyState ws h with
      | OPEN | CLOSING => Some (onmessage frame h)
      | _ => None
      end
  | HeartbeatTick => Some (heartbeat h)
  | ClickSync => if syncing h then None else Some (handleSync h)
  | SelectDate date => Some (selectionEffect (setSelectedDate date h))
  | ClickRange range =>
      let changed := negb (DateRange_eqb range (selectedDateRange h)) in
      let h := handleDateRangeChange range h in
      Some (if changed then selectionEffect h else h)
  | DeferredFetch i =>
      match nth_error (deferred h) i with
      | Some (date, range) =>
          Some (fetchEvents date range
                  (set_deferred (removeAt i (deferred h)) h))
      | None => None
      end
  | ClickDelete eventId => Some (handleDeleteEvent eventId h)
  | TypeCommand text => if loading h then None else Some (setCommand text h)
  | SendCommand => if loading h then None else Some (handleCommand h)
  | OpenForm => Some (setEventFormOpen true h)
  | CloseForm =>
      if eventFormOpen h then Some (setEventFormOpen false h) else None
  | SubmitForm => if eventFormOpen h then Some (handleCreateEvent h) else None
  | Settle i r =>
      match nth_error (inflight h) i with
      | Some p =>
          let h := set_inflight (removeAt i (inflight h)) h in
          match p, r with
          | AwaitFetch _, (Events _ | Rejected _) =>
              Some (fetchEvents_resume r h)
          | AwaitSync, (SyncData _ | Rejected _) =>
              Some (handleSync_resume r h)
          | AwaitDelete eventId events, (DeleteResponse _ _ | Rejected _) =>
              Some (handleDeleteEvent_resume eventId events r h)
          | AwaitCommand, (CommandData _ | Rejected _) =>
              Some (handleCommand_resume r h)
          | AwaitCreate date range, (CreateResponse _ _ | Rejected _) =>
              Some (handleCreateEvent_resume date range r h)
          | _, _ => None
          end
      | None => None
      end
  end.

Fixpoint run (inputs : list Input) (h : Home) : option Home :=
  match inputs with
  | [] => Some h
  | i :: rest =>
      match step i h with
      | Some h' => run rest h'
      | None => None
      end
  end.

Inductive reachable : Home -> Prop :=
| reachable_mount now throws : reachable (mount now throws)
| reachable_step h i h' :
    reachable h -> step i h = Some h' -> reachable h'.

End WithHost.
End Page.

(** ** The earlier revision of the page ([unnamed/part_001])

    A second copy of [page.tsx], from before the date ranges, the event
    form and the deletion.  Its connection manager is the one above (with
    the one [catch]); its sync and fetch handlers differ, and are kept here
    for comparison. *)

Module EarlierPage.

(** [syncStatus] is [SyncStatus | null] and holds what was received;
    [fetches] counts the calls of [fetchEvents]. *)
Record Home : Type := {
  events : list Event;
  syncing : bool;
  error : option string;
  syncStatus : Js.value;
  fetches : nat
}.

Definition initial : Home :=
  {| events := []; syncing := false; error := None; syncStatus := Js.Null;
     fetches := 0%nat |}.

(** [fetchEvents] from its [await api.getWeekEvents()] on; its [catch]
    does not call [setEvents]. *)
Definition fetchEvents_resume (r : list Event + Thrown) (h : Home) : Home :=
  match r with
  | inl data =>
      {| events := data; syncing := syncing h; error := None;
         syncStatus := syncStatus h; fetches := fetches h |}
  | inr err =>
      {| events := events h; syncing := syncing h;
         error := Some (Page.messageOr err "Failed to fetch events");
         syncStatus := syncStatus h; fetches := fetches h |}
  end.

(** The [sync_complete] branch of [ws.onmessage]:
    [setSyncStatus(data.stats); setSyncing(false); fetchEvents()]. *)
Definition sync_complete (data : Js.value) (h : Home) : Home :=
  {| events := events h; syncing := false; error := error h;
     syncStatus := Js.get_opt data "stats"; fetches := S (fetches h) |}.

(** [handleSync] from its [await api.syncCalendar()] on. *)
Definition handleSync_resume (r : Js.value + Thrown) (h : Home) : Home :=
  match r with
  | inl data =>
      {| events := events h; syncing := syncing h; error := error h;
         syncStatus := data; fetches := fetches h |}
  | inr err =>
      {| events := events h; syncing := false;
         error := Some (Page.messageOr err "Sync failed");
         syncStatus := syncStatus h; fetches := fetches h |}
  end.

End EarlierPage.

(** ** What the properties are stated with *)

Module PageSpec.
Import Page.

Definition emptyStatus : SyncStatus :=
  {| success := Js.Bool false; new_events := Js.Num 0;
     updated_events := Js.Num 0; deleted_events := Js.Num 0;
     errors := Js.Arr [] |}.

(** The frame parsed to an object that declares [type: lit]. *)
Definition declares (frame : option Js.value) (lit : string) : Prop :=
  exists data, frame = Some data /\ Js.get data "type" = Some (Js.Str lit).

Definition deleteError (error : option string) : string :=
  match error with
  | Some e => if (e =? "")%string then "Failed to delete event" else e
  | None => "Failed to delete event"
  end.

Definition without (eventId : string) (l : list Event) : list Event :=
  filter (fun event => negb (id event =? eventId)%string) l.

Definition isLive (r : ReadyState) : bool :=
  match r with
  | CLOSED => false
  | _ => true
  end.

(** The sockets the browser still holds open or is opening or closing. *)
Fixpoint live (l : list ReadyState) : nat :=
  match l with
  | [] => 0
  | r :: rest => (if isLive r then 1 else 0) + live rest
  end.

(** What holds of the connection manager in every state the page reaches:
    the attempt counter stays within its budget, a reconnect timer is
    pending only while no socket is left, and at most one of them. *)
Record Inv (h : Home) : Prop := {
  attempts_range : 0 <= reconnectAttempts h <= maxReconnectAttempts;
  one_at_a_time : (List.length (timers h) + live (sockets h) <= 1)%nat;
  exhausted_dead :
    reconnectAttempts h = maxReconnectAttempts -> live (sockets h) = 0%nat
}.

(** [min(1000 * 2^attempt, 10000)]. *)
Definition reconnectDelay (attempt : Z) : Z :=
  Z.min (1000 * 2 ^ attempt) 10000.

(** The part of the component the connection manager owns. *)
Definition connection (h : Home) :=
  (wsRef h, reconnectTimeout h, isConnecting h, reconnectAttempts h,
   sockets h, timers h, nextTimer h).

(** The inputs that are no event of a socket and no reconnect timer. *)
Definition besideConnection (i : Input) : bool :=
  match i with
  | TimerFired _ _ | SocketOpen _ | SocketError _ | SocketClose _ => false
  | _ => true
  end.

End PageSpec.

(** ** Sample data, on the UTC host *)

Module Scenario.
Import Page.

#[local] Existing Instance Utc.host.

Definition sampleEvent (i s : string) : Event :=
  {| id := i; title := i; description := None; start_time := s;
     end_time := s; location := None; participants := [] |}.

Definition sample : list Event :=
  [ sampleEvent "late" "2025-03-05T17:00:00Z";
    sampleEvent "sat" "2025-03-08T23:59:59Z";
    sampleEvent "early" "2025-03-05T08:30:00Z";
    sampleEvent "feb" "2025-02-28T12:00:00Z";
    sampleEvent "sun" "2025-03-02T00:00:00Z";
    sampleEvent "next" "2025-03-09T00:00:00Z";
    sampleEvent "bad" "yesterday";
    sampleEvent "end" "2025-03-31T23:59:59Z" ].

Definition wednesday : Z := 1741176000000.

Definition monday : Z := 1741003200000.
Definition tuesday : Z := 1741089600000.
Definition standup : Event := sampleEvent "e1" "2025-03-03T09:00:00Z".
Definition review : Event := sampleEvent "e2" "2025-03-04T14:00:00Z".
Definition retro : Event := sampleEvent "e3" "2025-03-04T16:00:00Z".
Definition planning : Event := sampleEvent "e4" "2025-03-05T10:00:00Z".

(** The page right after its first render, its socket constructed. *)
Definition fresh : Home := Eval vm_compute in mount monday false.

Definition after (inputs : list Input) (h : Home) : Home :=
  match run inputs h with
  | Some h' => h'
  | None => h
  end.

(** Both fetches of the mount answered with three events. *)
Definition loaded : Home :=
  Eval vm_compute in
    after [SocketOpen 0%nat; Settle 0%nat (Events [standup; review; retro]);
           Settle 0%nat (Events [standup; review; retro])] fresh.

Definition emptyPayloadMessage : Js.value :=
  Js.Obj [("type", Js.Str "sync_complete"); ("data", Js.Obj [])].

Definition futureMessage : option Js.value :=
  Some (Js.Obj [("type", Js.Str "event_created"); ("data", Js.Obj [])]).

(** A sync completes elsewhere, and the fetch it triggers fails. *)
Definition refetching : Home :=
  Eval vm_compute in
    after [SocketMessage 0%nat (Some emptyPayloadMessage)] loaded.

Definition twoFetches : Home :=
  Eval vm_compute in
    after [ClickRange day; Settle 0%nat (Events []); DeferredFetch 0%nat;
           Settle 0%nat (Events []);
           SelectDate monday; SelectDate tuesday] loaded.

Definition exhausting : list Input :=
  [SocketClose 0%nat; TimerFired 0%nat true; TimerFired 1%nat true;
   TimerFired 2%nat true; TimerFired 3%nat true].

(** Five failures in a row: the budget is spent, the fifth timer pending. *)
Definition exhausted : Home := Eval vm_compute in after exhausting loaded.



End Scenario.

(** ** [page.tsx]: the cleanup of the mount effect *)

Module Unmount.
Import Page.

(** [clearTimeout(handle)]; the handle of a timer that has fired, or
    [undefined], clears nothing. *)
Definition clearTimeout (handle : option nat) (l : list (nat * Z))
  : list (nat * Z) :=
  match handle with
  | Some t => filter (fun p => negb (Nat.eqb (fst p) t)) l
  | None => l
  end.

(** The function the mount effect returns, run at unmount.  Its
    [clearInterval(heartbeatInterval)] ends the heartbeat ticks and touches
    nothing the component holds.  The handlers stay installed on the socket
    it closes. *)
Definition cleanup (h : Home) : Home :=
  let h := set_timers (clearTimeout (reconnectTimeout h) (timers h)) h in
  match wsRef h with
  | Some k => set_wsRef None (close k h)
  | None => h
  end.

End Unmount.

(** ** [Calendar.tsx]: the day cells *)

Module Calendar.

Section WithHost.
Context {H : Host}.

(** [isSameDay(dateLeft, dateRight)] of date-fns: the two days start at
    the same instant; the Invalid Date is on no day. *)
Definition isSameDay (dateLeft : option Z) (dateRight : Z) : bool :=
  match dateLeft with
  | Some t => startOfDay t =? startOfDay dateRight
  | None => false
  end.

(** [dayEvents] of [ServerDay]. *)
Definition dayEvents (events : list Event) (day : Z) : list Event :=
  filter (fun event => isSameDay (Date_parse (start_time event)) day) events.

(** [!outsideCurrentMonth && dayEvents.length > 0]: the cell is
    highlighted and carries the dot. *)
Definition marked (events : list Event) (day : Z)
    (outsideCurrentMonth : bool) : bool :=
  negb outsideCurrentMonth
  && (0 <? Z.of_nat (List.length (dayEvents events day))).

End WithHost.
End Calendar.

(** ** More of what the properties are stated with *)

Module PageInvariants.
Import Page PageSpec.

(** How the connection manager's variables and the sockets hang together
    in every state the page reaches: [wsRef] names the one socket that is
    not closed, [reconnectTimeout] names the timer that is pending, whose
    delay is the one of the current counter, [isConnecting] is up only
    while that socket is connecting, and the counter is 0 while a socket is
    open. *)
Record Wired (h : Home) : Prop := {
  ref_live : forall k, isLive (readyState k h) = true -> wsRef h = Some k;
  ref_named : forall k, wsRef h = Some k -> isLive (readyState k h) = true;
  timer_named : forall t d,
    In (t, d) (timers h) -> reconnectTimeout h = Some t;
  timer_delay : forall t d,
    In (t, d) (timers h) ->
    1 <= reconnectAttempts h /\ d = reconnectDelay (reconnectAttempts h);
  connecting :
    isConnecting h = true ->
    exists k, wsRef h = Some k /\ readyState k h = CONNECTING;
  open_fresh : forall k, readyState k h = OPEN -> reconnectAttempts h = 0
}.

(** The inputs that can send a ping. *)
Definition pings (i : Input) : bool :=
  match i with
  | SocketOpen _ | HeartbeatTick => true
  | _ => false
  end.

(** The handlers that raise [loading] lower it in their [finally];
    [handleSync] leaves it alone. *)
Definition lowersLoading (p : Pending) : bool :=
  match p with
  | AwaitSync => false
  | _ => true
  end.

(** While [loading] is up, a request that will lower it is in flight. *)
Definition Busy (h : Home) : Prop :=
  loading h = true -> existsb lowersLoading (inflight h) = true.

(** The inputs whose handler can call [setError(null)]. *)
Definition clearsError (i : Input) : bool :=
  match i with
  | ClickSync | SendCommand => true
  | Settle _ (CommandData _) => true
  | Settle _ (DeleteResponse true _) => true
  | Settle _ (CreateResponse true _) => true
  | _ => false
  end.

Definition isOpen (i : Input) : bool :=
  match i with
  | SocketOpen _ => true
  | _ => false
  end.

(** The part of the component the connection manager does not own: the
    React state and the requests and deferred calls the handlers made. *)
Definition beside (h : Home) :=
  (command h, events h, loading h, syncing h, error h, syncStatus h,
   selectedDate h, selectedDateRange h, eventFormOpen h, deferred h,
   inflight h).

(** No socket opens during these inputs. *)
Definition noOpen (inputs : list Input) : bool :=
  forallb (fun i => negb (isOpen i)) inputs.

End PageInvariants.

Module EventListSpec.

Section WithHost.
Context {H : Host}.

(** The event starts at the instant [t]. *)
Definition startsAt (t : Z) (e : Event) : bool :=
  match Date_parse (start_time e) with
  | Some t' => t' =? t
  | None => false
  end.

End WithHost.
End EventListSpec.

(** ** More sample data, on the UTC host *)

Module MoreScenarios.
Import Page Scenario.

#[local] Existing Instance Utc.host.

(** The socket of [loaded] has closed: the first reconnect timer is
    pending. *)
Definition waiting : Home :=
  Eval vm_compute in after [SocketClose 0%nat] loaded.

(** A fetch has failed: its error is on display. *)
Definition failed : Home :=
  Eval vm_compute in
    after [SelectDate tuesday;
           Settle 0%nat (Rejected (IsError "Network Error"))] loaded.

(** A command is typed and sent. *)
Definition commanding : Home :=
  Eval vm_compute in
    after [TypeCommand "show my events for today"; SendCommand] loaded.

(** The form is open, in the day view of Tuesday. *)
Definition filling : Home :=
  Eval vm_compute in
    after [ClickRange day; Settle 0%nat (Events []); DeferredFetch 0%nat;
           Settle 0%nat (Events []); SelectDate tuesday;
           Settle 0%nat (Events [review; retro]); OpenForm] loaded.

(** A sync is under way. *)
Definition syncingNow : Home :=
  Eval vm_compute in after [ClickSync] loaded.

(** After the failed fetch another date is selected: the error is on
    display and a fetch is in flight. *)
Definition retrying : Home :=
  Eval vm_compute in after [SelectDate wednesday] failed.

(** A command is typed and not yet sent. *)
Definition typed : Home :=
  Eval vm_compute in after [TypeCommand "show my events for today"] loaded.

(** U+00A0 NO-BREAK SPACE and U+3000 IDEOGRAPHIC SPACE, in UTF-8. *)
Definition noBreakSpace : string := String "194" (String "160" "").
Definition ideographicSpace : string :=
  String "227" (String "128" (String "128" "")).

(** A command of white space only is typed: a space, a no-break space, a
    tab and an ideographic space. *)
Definition padded : Home :=
  Eval vm_compute in
    after [TypeCommand
             (" " ++ noBreakSpace ++ String "009" ideographicSpace)%string]
      loaded.

End MoreScenarios.

(** * Properties *)

(** ** JavaScript values *)

Module JsFacts.

Lemma or_defined a b : Js.defined b -> Js.defined (Js.or a b).
Proof.
  unfold Js.or, Js.defined; intros Hb.
  destruct a; simpl; try exact Hb; try (split; discriminate).
  - destruct b0; [split; discriminate | exact Hb].
  - destruct (n =? 0); [exact Hb | split; discriminate].
  - destruct (s =? "")%string; [exact Hb | split; discriminate].
Qed.

Lemma or_falsy a b : Js.truthy a = false -> Js.or a b = b.
Proof. unfold Js.or; intros ->; reflexivity. Qed.

Lemma or_truthy a b : Js.truthy a = true -> Js.or a b = a.
Proof. unfold Js.or; intros ->; reflexivity. Qed.

Lemma absent_or p k b : Js.absent p k -> Js.or (Js.get_opt p k) b = b.
Proof. unfold Js.absent; intros ->; reflexivity. Qed.

End JsFacts.

(** ** The UTC host keeps the laws *)

Module UtcFacts.
Import Utc.

#[local] Ltac Zify.zify_post_hook ::= Z.to_euclidean_division_equations.

(** The day number of a civil date, back from [civil]. *)
Lemma civil_roundtrip z :
  let '(y, m, d) := civil z in
  daysFromCivil y m d = z /\ 1 <= m <= 12 /\ 1 <= d.
Proof.
  unfold civil, daysFromCivil.
  set (Z0 := z + 719468).
  set (era := Z0 / 146097).
  set (doe := Z0 - era * 146097).
  set (yoe := (doe - doe / 1460 + doe / 36524 - doe / 146096) / 365).
  set (doy := doe - (365 * yoe + yoe / 4 - yoe / 100)).
  set (mp := (5 * doy + 2) / 153).
  assert (Hdoe : 0 <= doe < 146097) by (unfold doe, era; lia).
  assert (Hy : 0 <= yoe < 400 /\ 0 <= doy <= 365) by (unfold doy, yoe; lia).
  assert (Hmp : 0 <= mp <= 11) by (unfold mp; lia).
  destruct (mp <? 10) eqn:E1.
  - apply Z.ltb_lt in E1.
    replace (mp + 3 <=? 2) with false by (symmetry; apply Z.leb_gt; lia).
    replace (2 <? mp + 3) with true by (symmetry; apply Z.ltb_lt; lia).
    replace (mp + 3 - 3) with mp by lia.
    replace (yoe + era * 400 + 0) with (era * 400 + yoe) by lia.
    assert (Hq : (era * 400 + yoe) / 400 = era) by lia.
    rewrite Hq.
    replace (era * 400 + yoe - era * 400) with yoe by lia.
    unfold mp at 2, doy, doe. unfold mp. lia.
  - apply Z.ltb_ge in E1.
    replace (mp - 9 <=? 2) with true by (symmetry; apply Z.leb_le; lia).
    replace (2 <? mp - 9) with false by (symmetry; apply Z.ltb_ge; lia).
    replace (mp - 9 + 9) with mp by lia.
    replace (yoe + era * 400 + 1 - 1) with (era * 400 + yoe) by lia.
    assert (Hq : (era * 400 + yoe) / 400 = era) by lia.
    rewrite Hq.
    replace (era * 400 + yoe - era * 400) with yoe by lia.
    unfold mp at 2, doy, doe. unfold mp. lia.
Qed.

Lemma leap_spec y :
  (leap y = true /\ ((y mod 4 = 0 /\ y mod 100 <> 0) \/ y mod 400 = 0))
  \/ (leap y = false /\ (y mod 4 <> 0 \/ y mod 100 = 0) /\ y mod 400 <> 0).
Proof.
  unfold leap.
  destruct (Z.eqb_spec (y mod 4) 0), (Z.eqb_spec (y mod 100) 0),
    (Z.eqb_spec (y mod 400) 0); simpl; intuition lia.
Qed.

(** The civil date of a day number, back from [daysFromCivil]. *)
Lemma civil_of_days y m d :
  1 <= m <= 12 -> 1 <= d <= daysInMonth y m ->
  civil (daysFromCivil y m d) = (y, m, d).
Proof.
  intros Hm Hd.
  assert (Hdim : (m = 2 /\ daysInMonth y m = if leap y then 29 else 28)
                 \/ ((m = 4 \/ m = 6 \/ m = 9 \/ m = 11)
                     /\ daysInMonth y m = 30)
                 \/ ((m = 1 \/ m = 3 \/ m = 5 \/ m = 7 \/ m = 8 \/ m = 10
                      \/ m = 12)
                     /\ daysInMonth y m = 31)).
  { unfold daysInMonth.
    destruct (Z.eqb_spec m 2); [left; split; [assumption | reflexivity]|].
    destruct (Z.eqb_spec m 4), (Z.eqb_spec m 6), (Z.eqb_spec m 9),
      (Z.eqb_spec m 11); simpl; try (right; left; split; [lia | reflexivity]).
    right; right; split; [lia | reflexivity]. }
  unfold daysFromCivil.
  set (Y := if m <=? 2 then y - 1 else y).
  set (mp := if 2 <? m then m - 3 else m + 9).
  set (era := Y / 400).
  set (yoe := Y - era * 400).
  set (doy := (153 * mp + 2) / 5 + d - 1).
  set (doe := yoe * 365 + yoe / 4 - yoe / 100 + doy).
  assert (HY : Y = if m <=? 2 then y - 1 else y) by reflexivity.
  assert (Hmp : mp = if 2 <? m then m - 3 else m + 9) by reflexivity.
  assert (Hyoe : 0 <= yoe < 400) by (unfold yoe, era; lia).
  assert (Hmp' : 0 <= mp <= 11 /\ (m <= 2 -> mp = m + 9 /\ Y = y - 1)
                 /\ (2 < m -> mp = m - 3 /\ Y = y)).
  { destruct (Z.ltb_spec 2 m), (Z.leb_spec m 2); lia. }
  assert (Hdoy : 0 <= doy /\ (153 * mp + 2) / 5 <= doy
                 /\ doy < (153 * (mp + 1) + 2) / 5
                 /\ doy < 365 + (yoe + 1) / 4 - yoe / 4
                          - ((yoe + 1) / 100 - yoe / 100)
                          + (if yoe =? 399 then 1 else 0)).
  { destruct (leap_spec y) as [[Hl Hp] | [Hl Hp]]; rewrite Hl in Hdim;
      destruct (Z.eqb_spec yoe 399); unfold doy; unfold yoe, era in *;
      clearbody Y mp; clear doe doy HY Hmp; lia. }
  assert (Hd' : d = doy - (153 * mp + 2) / 5 + 1) by (unfold doy; lia).
  clearbody doy.
  assert (Hdoe : 0 <= doe < 146097)
    by (unfold doe; destruct (Z.eqb_spec yoe 399); lia).
  unfold civil.
  replace (era * 146097 + doe - 719468 + 719468) with (era * 146097 + doe)
    by lia.
  assert (E1 : (era * 146097 + doe) / 146097 = era) by lia.
  rewrite E1.
  replace (era * 146097 + doe - era * 146097) with doe by lia.
  assert (E2 : (doe - doe / 1460 + doe / 36524 - doe / 146096) / 365 = yoe).
  { unfold doe; destruct (Z.eqb_spec yoe 399); lia. }
  rewrite E2.
  replace (doe - (365 * yoe + yoe / 4 - yoe / 100)) with doy
    by (unfold doe; lia).
  assert (E3 : (5 * doy + 2) / 153 = mp) by lia.
  rewrite E3, <- Hd'.
  destruct Hmp' as (Hr & Hlo & Hhi).
  destruct (Z.ltb_spec mp 10) as [Hlt | Hge].
  - assert (2 < m) by lia.
    destruct (Hhi ltac:(lia)) as [-> ->].
    replace (m - 3 + 3) with m by lia.
    destruct (Z.leb_spec m 2); [lia|].
    f_equal; f_equal; unfold yoe, era; lia.
  - assert (m <= 2) by lia.
    destruct (Hlo ltac:(lia)) as [-> HYy].
    replace (m + 9 - 9) with m by lia.
    destruct (Z.leb_spec m 2); [|lia].
    f_equal; f_equal; unfold yoe, era; lia.
Qed.

Lemma doy_tight doe :
  0 <= doe < 146097 ->
  let yoe := (doe - doe / 1460 + doe / 36524 - doe / 146096) / 365 in
  let doy := doe - (365 * yoe + yoe / 4 - yoe / 100) in
  doy < 365 + (yoe + 1) / 4 - yoe / 4 - ((yoe + 1) / 100 - yoe / 100)
        + (if yoe =? 399 then 1 else 0).
Proof.
  intros Hd yoe doy.
  assert (Hy : 0 <= yoe < 400 /\ 0 <= doy <= 365) by (unfold doy, yoe; lia).
  assert (Hc : doe / 36524 = 0 \/ doe / 36524 = 1 \/ doe / 36524 = 2
               \/ doe / 36524 = 3 \/ doe / 36524 = 4) by lia.
  destruct (Z.eqb_spec yoe 399) as [E|E].
  - unfold doy, yoe in *. lia.
  - unfold doy, yoe in *.
    destruct Hc as [Hc | [Hc | [Hc | [Hc | Hc]]]]; rewrite Hc in *; lia.
Qed.

Lemma civil_valid z :
  let '(y, m, d) := civil z in d <= daysInMonth y m.
Proof.
  unfold civil.
  set (Z0 := z + 719468).
  set (era := Z0 / 146097).
  set (doe := Z0 - era * 146097).
  set (yoe := (doe - doe / 1460 + doe / 36524 - doe / 146096) / 365).
  set (doy := doe - (365 * yoe + yoe / 4 - yoe / 100)).
  set (mp := (5 * doy + 2) / 153).
  assert (Hdoe : 0 <= doe < 146097) by (unfold doe, era; lia).
  pose proof (doy_tight doe Hdoe) as Ht; cbv zeta in Ht.
  fold yoe in Ht; fold doy in Ht.
  assert (Hy : 0 <= yoe < 400 /\ 0 <= doy) by (unfold doy, yoe; lia).
  assert (Hmp : 0 <= mp <= 11) by (unfold mp; lia).
  assert (Hd : (153 * mp + 2) / 5 <= doy < (153 * (mp + 1) + 2) / 5)
    by (unfold mp; lia).
  clearbody mp doy yoe era. clear Hdoe doe Z0.
  destruct (Z.ltb_spec mp 10).
  - replace (mp + 3 <=? 2) with false by (symmetry; apply Z.leb_gt; lia).
    unfold daysInMonth.
    destruct (Z.eqb_spec (mp + 3) 2); [lia|].
    destruct (Z.eqb_spec (mp + 3) 4), (Z.eqb_spec (mp + 3) 6),
      (Z.eqb_spec (mp + 3) 9), (Z.eqb_spec (mp + 3) 11); cbn [orb]; lia.
  - replace (mp - 9 <=? 2) with true by (symmetry; apply Z.leb_le; lia).
    unfold daysInMonth.
    destruct (Z.eqb_spec (mp - 9) 2).
    + destruct (leap_spec (yoe + era * 400 + 1)) as [[-> Hp] | [-> Hp]];
        destruct (Z.eqb_spec yoe 399); lia.
    + destruct (Z.eqb_spec (mp - 9) 4), (Z.eqb_spec (mp - 9) 6),
        (Z.eqb_spec (mp - 9) 9), (Z.eqb_spec (mp - 9) 11); cbn [orb]; lia.
Qed.

Lemma civil_inj a b : civil a = civil b -> a = b.
Proof.
  intros E; pose proof (civil_roundtrip a) as Ha.
  pose proof (civil_roundtrip b) as Hb; rewrite <- E in Hb.
  destruct (civil a) as [[y m] d]; destruct Ha as [Ha _], Hb as [Hb _].
  congruence.
Qed.

Lemma dayNumber_bounds t :
  dayNumber t * msPerDay <= t <= dayNumber t * msPerDay + msPerDay - 1.
Proof. unfold dayNumber, msPerDay; lia. Qed.

Lemma dayNumber_between t lo n :
  lo * msPerDay <= t <= lo * msPerDay + n * msPerDay - 1
  <-> lo <= dayNumber t <= lo + n - 1.
Proof. unfold dayNumber, msPerDay; lia. Qed.

Lemma day_law_utc a b :
  (year a = year b /\ monthOfYear a - 1 = monthOfYear b - 1
   /\ dayOfMonth a = dayOfMonth b)
  <-> midnight a = midnight b.
Proof.
  unfold year, monthOfYear, dayOfMonth, midnight; split.
  - intros (Hy & Hm & Hd).
    assert (E : civil (dayNumber a) = civil (dayNumber b)).
    { destruct (civil (dayNumber a)) as [[y m] d],
        (civil (dayNumber b)) as [[y' m'] d']; simpl in *.
      f_equal; [f_equal|]; lia. }
    apply civil_inj in E; rewrite E; reflexivity.
  - intros E.
    assert (E' : dayNumber a = dayNumber b) by (unfold msPerDay in E; lia).
    rewrite E'; repeat split.
Qed.

Lemma week_law_utc d t :
  sunday d <= t <= sunday d + 7 * msPerDay - 1 <-> sunday t = sunday d.
Proof.
  unfold sunday, weekday.
  pose proof (dayNumber_bounds t); pose proof (dayNumber_bounds d).
  set (a := dayNumber t) in *; set (b := dayNumber d) in *.
  unfold msPerDay in *; lia.
Qed.

Lemma daysFromCivil_day y m d :
  daysFromCivil y m d = daysFromCivil y m 1 + d - 1.
Proof. unfold daysFromCivil; lia. Qed.

Lemma daysInMonth_pos y m : 28 <= daysInMonth y m.
Proof.
  unfold daysInMonth.
  destruct (m =? 2); [destruct (leap y); lia |].
  destruct ((m =? 4) || (m =? 6) || (m =? 9) || (m =? 11)); lia.
Qed.

Lemma month_law_utc d t :
  firstOfMonth d <= t
  <= firstOfMonth d + daysInMonth (year d) (monthOfYear d) * msPerDay - 1
  <-> firstOfMonth t = firstOfMonth d.
Proof.
  unfold firstOfMonth, year, monthOfYear.
  pose proof (civil_roundtrip (dayNumber d)) as Hd.
  pose proof (civil_valid (dayNumber d)) as Hvd.
  pose proof (civil_roundtrip (dayNumber t)) as Ht.
  pose proof (civil_valid (dayNumber t)) as Hvt.
  destruct (civil (dayNumber d)) as [[y m] dd] eqn:Ed.
  destruct (civil (dayNumber t)) as [[y' m'] dt] eqn:Et.
  cbn [fst snd].
  destruct Hd as (Hd & Hm & Hdd), Ht as (Ht & Hm' & Hdt).
  rewrite daysFromCivil_day in Hd, Ht.
  pose proof (daysInMonth_pos y m) as Hp.
  rewrite dayNumber_between; split.
  - intros Hin.
    assert (E : civil (daysFromCivil y m
                         (dayNumber t - daysFromCivil y m 1 + 1))
                = (y, m, dayNumber t - daysFromCivil y m 1 + 1))
      by (apply civil_of_days; lia).
    rewrite daysFromCivil_day in E.
    replace (daysFromCivil y m 1
             + (dayNumber t - daysFromCivil y m 1 + 1) - 1)
      with (dayNumber t) in E by lia.
    rewrite Et in E; injection E as -> -> _; reflexivity.
  - intros E.
    assert (E' : daysFromCivil y' m' 1 = daysFromCivil y m 1)
      by (unfold msPerDay in E; lia).
    assert (C1 : civil (daysFromCivil y' m' 1) = (y', m', 1))
      by (apply civil_of_days;
          [lia | pose proof (daysInMonth_pos y' m'); lia]).
    assert (C2 : civil (daysFromCivil y m 1) = (y, m, 1))
      by (apply civil_of_days; lia).
    rewrite E', C2 in C1; injection C1 as <- <-.
    lia.
Qed.

#[export] Instance laws : HostLaws (H := host).
Proof.
  split.
  - exact day_law_utc.
  - exact week_law_utc.
  - exact month_law_utc.
Qed.

End UtcFacts.

(** ** The event list *)

Module EventListFacts.
Import EventList.

Section WithHost.
Context {H : Host} {L : HostLaws}.

(** The three tests of the filter callback say what the claim says. *)
Lemma test_inSelectedRange date dateRange t :
  match dateRange with
  | day =>
      (getFullYear t =? getFullYear date)
      && (getMonth t =? getMonth date) && (getDate t =? getDate date)
  | week => isWithinInterval t (startOfWeek date) (endOfWeek date)
  | month => isWithinInterval t (startOfMonth date) (endOfMonth date)
  end = true
  <-> inSelectedRange dateRange date t.
Proof.
  unfold inSelectedRange, isWithinInterval; destruct dateRange.
  - rewrite <- day_law; lia.
  - rewrite <- week_law; lia.
  - rewrite <- month_law; lia.
Qed.

Lemma keep_startsWithin date dateRange e :
  keep date dateRange e = true <-> startsWithin dateRange date e.
Proof.
  unfold keep, startsWithin.
  destruct (Date_parse (start_time e)) as [t|].
  - rewrite test_inSelectedRange; split.
    + intros Hk; exists t; split; [reflexivity | exact Hk].
    + intros (t' & Ht' & Hin); injection Ht' as <-; exact Hin.
  - split; [discriminate | intros (t & Ht & _); discriminate].
Qed.

Lemma startsWithin_dated date dateRange e :
  startsWithin dateRange date e -> dated e.
Proof. intros (t & Ht & _); exists t; exact Ht. Qed.

Lemma insert_Permutation cmp x l : Permutation (insert cmp x l) (x :: l).
Proof.
  induction l as [|y l IH]; simpl.
  - apply Permutation_refl.
  - destruct (cmp x y <=? 0).
    + apply Permutation_refl.
    + eapply perm_trans; [apply perm_skip, IH | apply perm_swap].
Qed.

Lemma sort_Permutation cmp l : Permutation (sort cmp l) l.
Proof.
  induction l as [|x l IH]; simpl.
  - apply perm_nil.
  - eapply perm_trans; [apply insert_Permutation | apply perm_skip, IH].
Qed.

Lemma startsNoLater_trans a b c :
  startsNoLater a b -> startsNoLater b c -> startsNoLater a c.
Proof.
  intros (ta & tb & Ha & Hb & Hab) (tb' & tc & Hb' & Hc & Hbc).
  rewrite Hb in Hb'; injection Hb' as <-.
  exists ta, tc; repeat split; try assumption; lia.
Qed.

Lemma compareFn_le x y :
  dated x -> dated y -> compareFn x y <= 0 -> startsNoLater x y.
Proof.
  intros (tx & Hx) (ty & Hy); unfold compareFn; rewrite Hx, Hy; intros Hc.
  exists tx, ty; repeat split; try assumption; lia.
Qed.

Lemma compareFn_gt x y :
  dated x -> dated y -> 0 < compareFn x y -> startsNoLater y x.
Proof.
  intros (tx & Hx) (ty & Hy); unfold compareFn; rewrite Hx, Hy; intros Hc.
  exists ty, tx; repeat split; try assumption; lia.
Qed.

Lemma insert_sorted x l :
  dated x -> Forall dated l -> StronglySorted startsNoLater l ->
  StronglySorted startsNoLater (insert compareFn x l).
Proof.
  intros Hx Hl Hs; induction Hs as [|y l Hs IH Hy]; simpl.
  - constructor; [constructor | constructor].
  - inversion Hl as [|? ? Hdy Hdl]; subst.
    destruct (compareFn x y <=? 0) eqn:Hc.
    + apply Z.leb_le in Hc.
      pose proof (compareFn_le x y Hx Hdy Hc) as Hxy.
      constructor; [constructor; assumption|].
      constructor; [exact Hxy|].
      eapply Forall_impl; [|exact Hy].
      intros z Hyz; eapply startsNoLater_trans; eassumption.
    + apply Z.leb_gt in Hc.
      constructor; [apply IH; assumption|].
      apply Forall_forall; intros z Hz.
      apply (Permutation_in _ (insert_Permutation compareFn x l)) in Hz.
      destruct Hz as [<- | Hz].
      * apply compareFn_gt; assumption.
      * rewrite Forall_forall in Hy; apply Hy, Hz.
Qed.

Lemma sort_sorted l :
  Forall dated l -> StronglySorted startsNoLater (sort compareFn l).
Proof.
  induction 1 as [|x l Hx Hl IH]; simpl.
  - constructor.
  - apply insert_sorted; [exact Hx | | exact IH].
    apply Forall_forall; intros z Hz.
    apply (Permutation_in _ (sort_Permutation compareFn l)) in Hz.
    rewrite Forall_forall in Hl; apply Hl, Hz.
Qed.

(** C10.  On a host that keeps the laws, for every events array, selected
    date and range among day, week and month, the list shows exactly the
    events whose start time is an instant of the selected range (the
    calendar day of the selected date, its week, its calendar month), each
    as often as it is in the array, in nondecreasing order of start time;
    an event outside the range, or whose start time does not parse, is
    never shown. *)
Theorem filteredEvents_in_range_sorted events date dateRange :
  let shown := filteredEvents events date dateRange in
  (forall e, In e shown <-> In e events /\ startsWithin dateRange date e)
  /\ (forall e, keep date dateRange e = true
                <-> startsWithin dateRange date e)
  /\ Permutation shown (filter (keep date dateRange) events)
  /\ StronglySorted startsNoLater shown.
Proof.
  unfold filteredEvents; cbv zeta.
  pose proof (sort_Permutation compareFn
                (filter (keep date dateRange) events)) as Hp.
  split; [|split; [|split]].
  - intros e; split.
    + intros Hin; apply (Permutation_in _ Hp), filter_In in Hin.
      split; [apply Hin | apply keep_startsWithin, Hin].
    + intros [Hin Hw].
      apply (Permutation_in _ (Permutation_sym Hp)).
      apply filter_In; split; [exact Hin | apply keep_startsWithin, Hw].
  - intros e; apply keep_startsWithin.
  - exact Hp.
  - apply sort_sorted, Forall_forall; intros e He.
    apply filter_In in He; destruct He as [_ Hk].
    apply keep_startsWithin in Hk.
    eapply startsWithin_dated, Hk.
Qed.

End WithHost.

(** On the UTC host: Wednesday 5 March 2025 selected. *)

(** On the UTC host: Wednesday 5 March 2025 selected. *)

Import Scenario.
#[local] Existing Instance Utc.host.

Example parse_wednesday :
  Utc.parse "2025-03-05T12:00:00Z" = Some wednesday.
Proof. reflexivity. Qed.

Example shown_day :
  map id (filteredEvents sample wednesday day) = ["early"; "late"].
Proof. vm_compute. reflexivity. Qed.

Example shown_week :
  map id (filteredEvents sample wednesday week)
  = ["sun"; "early"; "late"; "sat"].
Proof. vm_compute. reflexivity. Qed.

Lemma filteredEvents_in_range_sorted_witness :
  let shown := filteredEvents sample wednesday week in
  map id shown = ["sun"; "early"; "late"; "sat"]
  /\ (forall e, In e shown <-> In e sample /\ startsWithin week wednesday e)
  /\ StronglySorted startsNoLater shown.
Proof.
  split; [vm_compute; reflexivity|].
  destruct (filteredEvents_in_range_sorted (L := UtcFacts.laws)
              sample wednesday week) as (Hin & _ & _ & Hs).
  split; assumption.
Defined.

Example shown_month :
  map id (filteredEvents sample wednesday month)
  = ["sun"; "early"; "late"; "sat"; "next"; "end"].
Proof. vm_compute. reflexivity. Qed.

End EventListFacts.

(** ** The page *)

Module PageFacts.
Import Page PageSpec.

Section WithHost.
Context {H : Host}.

(** *** The sync status reducer *)

Lemma is_str_true v lit : Js.is_str v lit = true <-> v = Js.Str lit.
Proof.
  destruct v; simpl; try (split; [discriminate | intros E; discriminate E]).
  rewrite String.eqb_eq; split; [intros -> | intros E; injection E as ->];
    reflexivity.
Qed.

Lemma is_str_refl lit : Js.is_str (Js.Str lit) lit = true.
Proof. apply is_str_true; reflexivity. Qed.

Lemma onmessage_sync_complete data h :
  Js.get data "type" = Some (Js.Str "sync_complete") ->
  onmessage (Some data) h
  = fetchEvents (mountDate h) week
      (setSyncing false
         (setSyncStatus (withDefaults (Js.get_opt data "data")) h)).
Proof. unfold onmessage; intros ->; reflexivity. Qed.

Lemma withDefaults_empty : withDefaults (Js.Obj []) = emptyStatus.
Proof. reflexivity. Qed.

(** The notification clears the syncing flag and starts one fetch, for the
    week. *)
Lemma sync_complete_clears_syncing data h :
  Js.get data "type" = Some (Js.Str "sync_complete") ->
  syncing (onmessage (Some data) h) = false
  /\ inflight (onmessage (Some data) h)
     = inflight h ++ [AwaitFetch getWeekEvents].
Proof.
  intros Ht; rewrite (onmessage_sync_complete _ _ Ht); split; reflexivity.
Qed.

(** C4.  A [sync_complete] message always yields a complete status that
    replaces the one held: every field is a defined value, a field that is
    absent from the payload (or whose payload is absent) takes its default
    (0 for the three counts, false for the flag, the empty array for the
    errors) and so does a field that is null or otherwise falsy, a truthy
    field is kept as sent, the payload [{}] gives exactly
    [{success: false, new_events: 0, updated_events: 0, deleted_events: 0,
    errors: []}], and nothing of the previous status survives. *)
Theorem sync_complete_defaults data h :
  Js.get data "type" = Some (Js.Str "sync_complete") ->
  let p := Js.get_opt data "data" in
  let st := syncStatus (onmessage (Some data) h) in
  (Js.absent p "success" -> success st = Js.Bool false)
  /\ (Js.absent p "new_events" -> new_events st = Js.Num 0)
  /\ (Js.absent p "updated_events" -> updated_events st = Js.Num 0)
  /\ (Js.absent p "deleted_events" -> deleted_events st = Js.Num 0)
  /\ (Js.absent p "errors" -> errors st = Js.Arr [])
  /\ (Js.defined (success st) /\ Js.defined (new_events st)
      /\ Js.defined (updated_events st) /\ Js.defined (deleted_events st)
      /\ Js.defined (errors st))
  /\ (forall k v, Js.get_opt p k = v -> Js.truthy v = true ->
        (k = "success" -> success st = v)
        /\ (k = "new_events" -> new_events st = v)
        /\ (k = "updated_events" -> updated_events st = v)
        /\ (k = "deleted_events" -> deleted_events st = v)
        /\ (k = "errors" -> errors st = v))
  /\ (forall k, Js.truthy (Js.get_opt p k) = false ->
        (k = "success" -> success st = Js.Bool false)
        /\ (k = "new_events" -> new_events st = Js.Num 0)
        /\ (k = "updated_events" -> updated_events st = Js.Num 0)
        /\ (k = "deleted_events" -> deleted_events st = Js.Num 0)
        /\ (k = "errors" -> errors st = Js.Arr []))
  /\ (p = Js.Obj [] -> st = emptyStatus)
  /\ (forall h2, syncStatus (onmessage (Some data) h2) = st).
Proof.
  intros Ht p st.
  assert (Hst : st = withDefaults p).
  { unfold st; rewrite (onmessage_sync_complete _ _ Ht); reflexivity. }
  assert (Hall : forall h2, syncStatus (onmessage (Some data) h2) = st).
  { intros h2; rewrite Hst, (onmessage_sync_complete _ _ Ht); reflexivity. }
  clearbody st; subst st; unfold withDefaults; cbn [success new_events
    updated_events deleted_events errors].
  repeat match goal with |- _ /\ _ => split end;
    try (intros Ha; apply JsFacts.absent_or, Ha);
    try (apply JsFacts.or_defined; split; discriminate).
  - intros k v Hv Htr.
    repeat split; intros ->; rewrite Hv; apply JsFacts.or_truthy, Htr.
  - intros k Hf.
    repeat split; intros ->; apply JsFacts.or_falsy, Hf.
  - intros ->; reflexivity.
  - exact Hall.
Qed.

(** *** Unrecognized frames *)

(** C8.  A frame that does not declare one of the types
    [connection_established], [sync_complete], [pong], [ping] changes
    nothing: the component after the handler is the component before it,
    with its connection, its sync status, its syncing flag, its cached
    events and every socket as they were. *)
Theorem unrecognized_message_ignored frame h :
  ~ declares frame "connection_established" ->
  ~ declares frame "sync_complete" ->
  ~ declares frame "pong" ->
  ~ declares frame "ping" ->
  onmessage frame h = h
  /\ forall ws h', step (SocketMessage ws frame) h = Some h' -> h' = h.
Proof.
  intros _ Hsync _ _.
  assert (E : onmessage frame h = h).
  { unfold onmessage.
    destruct frame as [data|]; [|reflexivity].
    destruct (Js.get data "type") as [type|] eqn:Ht; [|reflexivity].
    destruct (Js.is_str type "connection_established"); [reflexivity|].
    destruct (Js.is_str type "sync_complete") eqn:Hs.
    - exfalso; apply Hsync; exists data; split; [reflexivity|].
      apply is_str_true in Hs; rewrite Ht, Hs; reflexivity.
    - destruct (Js.is_str type "pong"); reflexivity. }
  split; [exact E|].
  intros ws h'; simpl.
  destruct (readyState ws h); try discriminate;
    intros E'; injection E' as <-; exact E.
Qed.

(** *** Promises in flight *)

Lemma nth_error_last {A} (l : list A) p :
  nth_error (l ++ [p]) (List.length l) = Some p.
Proof. induction l; simpl; [reflexivity | assumption]. Qed.

Lemma removeAt_last {A} (l : list A) p :
  removeAt (List.length l) (l ++ [p]) = l.
Proof. induction l; simpl; [reflexivity | f_equal; assumption]. Qed.

Lemma nth_error_removeAt_before {A} (l : list A) a b :
  (a < b)%nat -> nth_error (removeAt b l) a = nth_error l a.
Proof.
  revert a b; induction l as [|x l IH]; intros a b Hab.
  - destruct b; reflexivity.
  - destruct b as [|b]; [lia|].
    destruct a as [|a]; simpl; [reflexivity|].
    apply IH; lia.
Qed.

(** *** Fetching events *)

(** C5, as the code has it.  When the API call of a fetch fails, the
    cached events become the empty array and the error is set to a string:
    the message of the thrown [Error], or a fixed text when the thrown
    value is no [Error].  The page shows it unless it is the empty string,
    which is the message of an [Error] made without one.  No events stay
    on display next to the error. *)
Theorem fetch_failure_clears_events h i request apiError :
  nth_error (inflight h) i = Some (AwaitFetch request) ->
  exists h',
    step (Settle i (Rejected apiError)) h = Some h'
    /\ events h' = []
    /\ error h'
       = Some (match apiError with
               | IsError message => message
               | NotError => "Failed to fetch events from server"
               end)
    /\ error h' <> None
    /\ (errorShown h' = false <-> apiError = IsError "").
Proof.
  intros Hi; simpl; rewrite Hi.
  eexists; split; [reflexivity|].
  split; [reflexivity|].
  split; [destruct apiError; reflexivity|].
  split; [discriminate|].
  unfold errorShown; destruct apiError as [message|]; cbn.
  - rewrite negb_false_iff, String.eqb_eq.
    split; [intros -> | intros E; injection E as ->]; reflexivity.
  - split; discriminate.
Qed.

(** C6, as the code has it.  Of two fetches in flight, the one that
    resolves last decides what is displayed, whichever was issued last:
    when the earlier fetch A resolves after the later fetch B, the
    displayed events are A's result, while the selection stays the one B
    was issued for. *)
Theorem last_resolved_fetch_wins h a b requestA requestB dataA dataB :
  (a < b)%nat ->
  nth_error (inflight h) a = Some (AwaitFetch requestA) ->
  nth_error (inflight h) b = Some (AwaitFetch requestB) ->
  exists h1 h2,
    step (Settle b (Events dataB)) h = Some h1
    /\ events h1 = dataB
    /\ step (Settle a (Events dataA)) h1 = Some h2
    /\ events h2 = dataA
    /\ selectedDate h2 = selectedDate h
    /\ selectedDateRange h2 = selectedDateRange h.
Proof.
  intros Hab Ha Hb.
  eexists; eexists; split.
  { simpl; rewrite Hb; reflexivity. }
  split; [reflexivity|]; split.
  { cbn [step inflight fetchEvents_resume setLoading setEvents set_inflight].
    rewrite (nth_error_removeAt_before _ _ _ Hab), Ha; reflexivity. }
  repeat split.
Qed.

(** *** Manual sync *)

(** C1, at the successful response.  [handleSync] raises the syncing flag;
    when the call resolves, the status is replaced but the flag stays
    raised, so the sync button stays disabled; when the call rejects, the
    status is replaced and the flag is cleared. *)
Theorem handleSync_success_keeps_syncing h data :
  let i := List.length (inflight h) in
  let h1 := handleSync h in
  syncing h1 = true
  /\ (exists h2,
        step (Settle i (SyncData data)) h1 = Some h2
        /\ syncStatus h2 = withDefaults data
        /\ syncing h2 = true
        /\ step ClickSync h2 = None)
  /\ (forall err, exists h2,
        step (Settle i (Rejected err)) h1 = Some h2
        /\ syncing h2 = false
        /\ error h2 = Some (messageOr err "Sync failed")).
Proof.
  cbv zeta; split; [reflexivity|]; split.
  - eexists; split.
    + cbn [step handleSync await inflight set_inflight setError setSyncing].
      rewrite nth_error_last; reflexivity.
    + repeat split.
  - intros err; eexists; split.
    + cbn [step handleSync await inflight set_inflight setError setSyncing].
      rewrite nth_error_last; reflexivity.
    + split; reflexivity.
Qed.

(** *** Deleting an event *)

Lemma In_without eventId l e :
  In e (without eventId l) <-> In e l /\ id e <> eventId.
Proof.
  unfold without; rewrite filter_In, negb_true_iff.
  rewrite <- String.eqb_neq; reflexivity.
Qed.

(** When nothing else runs between the click and the response, a
    successful deletion removes exactly the events with that id and clears
    the error, and a refused one leaves the events alone and shows the
    reported error or the default text. *)
Lemma handleDeleteEvent_undisturbed h eventId error :
  let i := List.length (inflight h) in
  let h1 := handleDeleteEvent eventId h in
  (exists h2,
     step (Settle i (DeleteResponse true error)) h1 = Some h2
     /\ events h2 = without eventId (events h)
     /\ Page.error h2 = None
     /\ inflight h2 = inflight h)
  /\ (exists h2,
        step (Settle i (DeleteResponse false error)) h1 = Some h2
        /\ events h2 = events h
        /\ Page.error h2 = Some (deleteError error)
        /\ inflight h2 = inflight h).
Proof.
  cbv zeta; split; eexists; (split;
    [ cbn [step handleDeleteEvent await inflight set_inflight setLoading];
      rewrite nth_error_last; reflexivity
    | cbn; rewrite removeAt_last; repeat split ]).
Qed.

(** Whenever it arrives, the successful response writes the array the
    handler's closure holds, filtered, over the cached events. *)
Lemma handleDeleteEvent_writes_closure h i eventId held error :
  nth_error (inflight h) i = Some (AwaitDelete eventId held) ->
  exists h',
    step (Settle i (DeleteResponse true error)) h = Some h'
    /\ events h' = without eventId held.
Proof.
  intros Hi; simpl; rewrite Hi; eexists; split; reflexivity.
Qed.

(** *** The connection manager *)

Lemma live_app l r : live (l ++ [r]) = (live l + if isLive r then 1 else 0)%nat.
Proof. induction l as [|x l IH]; simpl; [lia | rewrite IH; lia]. Qed.

Lemma live_nth k l : isLive (nth k l CLOSED) = true -> (1 <= live l)%nat.
Proof.
  revert k; induction l as [|x l IH]; intros [|k]; simpl;
    try discriminate.
  - intros ->; lia.
  - intros Hk; specialize (IH _ Hk); lia.
Qed.

Lemma live_none k l : live l = 0%nat -> nth k l CLOSED = CLOSED.
Proof.
  intros Hl; destruct (nth k l CLOSED) eqn:Hk; try reflexivity;
    assert (Hx : isLive (nth k l CLOSED) = true) by (rewrite Hk; reflexivity);
    apply live_nth in Hx; lia.
Qed.

Lemma live_setReady k r l :
  isLive (nth k l CLOSED) = true ->
  live (setReady k r l)
  = (live l - 1 + if isLive r then 1 else 0)%nat.
Proof.
  revert k; induction l as [|x l IH]; intros [|k]; simpl;
    try discriminate.
  - intros ->; lia.
  - intros Hk; rewrite (IH _ Hk).
    apply live_nth in Hk; destruct (isLive x); lia.
Qed.

Lemma takeTimer_length handle l rest :
  takeTimer handle l = Some rest -> List.length l = S (List.length rest).
Proof.
  revert rest; induction l as [|[h' d] l IH]; intros rest; simpl.
  - discriminate.
  - destruct (Nat.eqb h' handle).
    + intros E; injection E as <-; reflexivity.
    + destruct (takeTimer handle l) as [rest'|]; [|discriminate].
      intros E; injection E as <-; simpl; rewrite (IH _ eq_refl); reflexivity.
Qed.

Lemma Inv_frame h h' :
  Inv h ->
  reconnectAttempts h' = reconnectAttempts h ->
  timers h' = timers h ->
  sockets h' = sockets h ->
  Inv h'.
Proof.
  intros [A B C] Ha Ht Hs; split; rewrite ?Ha, ?Ht, ?Hs; assumption.
Qed.

Ltac framed HI := apply (Inv_frame _ _ HI); reflexivity.

Lemma fetchEvents_Inv date range h : Inv h -> Inv (fetchEvents date range h).
Proof. intros HI; framed HI. Qed.

Lemma planReconnect_spec h :
  reconnectAttempts (planReconnect h) = reconnectAttempts h + 1
  /\ timers (planReconnect h)
     = timers h ++ [(nextTimer h, reconnectDelay (reconnectAttempts h + 1))]
  /\ nextTimer (planReconnect h) = S (nextTimer h)
  /\ reconnectTimeout (planReconnect h) = Some (nextTimer h)
  /\ sockets (planReconnect h) = sockets h
  /\ wsRef (planReconnect h) = wsRef h
  /\ isConnecting (planReconnect h) = isConnecting h.
Proof. repeat split. Qed.

Lemma planReconnect_Inv h :
  reconnectAttempts h < maxReconnectAttempts ->
  timers h = [] -> live (sockets h) = 0%nat ->
  0 <= reconnectAttempts h ->
  Inv (planReconnect h).
Proof.
  intros Hlt Ht Hl H0.
  destruct (planReconnect_spec h) as (Ea & Et & _ & _ & Es & _).
  split; rewrite ?Ea, ?Et, ?Es, ?Ht, ?Hl; simpl; lia.
Qed.

Lemma close_dead k h : live (sockets h) = 0%nat -> close k h = h.
Proof.
  intros Hl; unfold close, readyState; rewrite (live_none _ _ Hl); reflexivity.
Qed.

Lemma connectWebSocket_exhausted throws h :
  maxReconnectAttempts <= reconnectAttempts h ->
  connectWebSocket throws h = h.
Proof.
  intros Hge; unfold connectWebSocket.
  destruct (maxReconnectAttempts <=? reconnectAttempts h) eqn:E.
  - rewrite orb_true_r; reflexivity.
  - apply Z.leb_gt in E; lia.
Qed.

Lemma connectWebSocket_Inv throws h :
  Inv h -> timers h = [] -> live (sockets h) = 0%nat ->
  Inv (connectWebSocket throws h).
Proof.
  intros HI Ht Hl; unfold connectWebSocket.
  destruct (isConnecting h || (maxReconnectAttempts <=? reconnectAttempts h))
    eqn:Hskip; [exact HI|].
  apply orb_false_iff in Hskip; destruct Hskip as [_ Hlt].
  apply Z.leb_gt in Hlt.
  destruct HI as [A B C].
  set (h1 := match wsRef (set_isConnecting true h) with
             | Some k => set_wsRef None (close k (set_isConnecting true h))
             | None => set_isConnecting true h
             end).
  assert (E1 : reconnectAttempts h1 = reconnectAttempts h
               /\ timers h1 = timers h /\ sockets h1 = sockets h).
  { unfold h1; destruct (wsRef (set_isConnecting true h)) as [k|];
      [rewrite close_dead by exact Hl|]; repeat split. }
  destruct E1 as (Ea & Et & Es).
  destruct throws.
  - cbn [reconnectAttempts set_isConnecting]; rewrite Ea.
    destruct (reconnectAttempts h <? maxReconnectAttempts) eqn:Hlt';
      [|apply Z.ltb_ge in Hlt'; lia].
    apply planReconnect_Inv; cbn; rewrite ?Ea, ?Et, ?Es; try assumption; lia.
  - split; cbn [reconnectAttempts timers sockets set_wsRef set_sockets];
      rewrite ?Ea, ?Et, ?Es, ?Ht, ?live_app, ?Hl; simpl; try lia.
Qed.

Lemma onclose_Inv h :
  0 <= reconnectAttempts h <= maxReconnectAttempts ->
  timers h = [] -> live (sockets h) = 0%nat -> Inv (onclose h).
Proof.
  intros A Ht Hl; unfold onclose.
  cbn [reconnectAttempts set_wsRef set_isConnecting].
  destruct (reconnectAttempts h <? maxReconnectAttempts) eqn:Hlt.
  - apply Z.ltb_lt in Hlt; apply planReconnect_Inv; cbn; try assumption; lia.
  - split; cbn; rewrite ?Ht, ?Hl; simpl; lia.
Qed.

Lemma mount_Inv now throws : Inv (mount now throws).
Proof.
  unfold mount, selectionEffect.
  do 2 apply fetchEvents_Inv.
  apply connectWebSocket_Inv; [|reflexivity ..].
  split; cbn; unfold maxReconnectAttempts; try lia.
Qed.

Ltac cases :=
  repeat match goal with
         | |- context [match ?x with _ => _ end] => destruct x
         end.

Ltac settle :=
  cases; try discriminate;
  let E := fresh in intros E; injection E as <-;
  try reflexivity; simpl; cases; reflexivity.

(** Messages, heartbeats, clicks and responses leave the connection
    manager's variables, the sockets and the timers as they are. *)
Lemma step_leaves_connection i h h' :
  besideConnection i = true -> step i h = Some h' ->
  connection h' = connection h.
Proof.
  destruct i; try discriminate; intros _; simpl;
    unfold onmessage, heartbeat, handleCommand; settle.
Qed.

Lemma Inv_connection h h' : connection h' = connection h -> Inv h -> Inv h'.
Proof.
  unfold connection; intros E HI; injection E as _ _ _ Ha Hs Ht _.
  apply (Inv_frame _ _ HI); assumption.
Qed.

Lemma step_Inv i h h' : Inv h -> step i h = Some h' -> Inv h'.
Proof.
  intros HI; pose proof HI as [A B C].
  destruct (besideConnection i) eqn:Hi.
  { intros Hs; apply (Inv_connection h);
      [apply (step_leaves_connection i) | ]; assumption. }
  destruct i; try discriminate Hi; simpl.
  - (* TimerFired *)
    destruct (takeTimer handle (timers h)) as [rest|] eqn:Ht; [|discriminate].
    intros E; injection E as <-.
    apply takeTimer_length in Ht.
    assert (Hr : rest = [])
      by (destruct rest; [reflexivity | simpl in Ht; lia]).
    assert (Hl : live (sockets h) = 0%nat) by lia.
    subst rest; apply connectWebSocket_Inv; [|reflexivity | exact Hl].
    split; cbn; try assumption; lia.
  - (* SocketOpen *)
    destruct (readyState ws h) eqn:Hr; try discriminate.
    intros E; injection E as <-.
    assert (Hk : isLive (nth ws (sockets h) CLOSED) = true)
      by (unfold readyState in Hr; rewrite Hr; reflexivity).
    pose proof (live_nth _ _ Hk) as Hge.
    pose proof (live_setReady ws OPEN _ Hk) as Hs; simpl in Hs.
    set (b := set_reconnectAttempts 0
                (set_isConnecting false
                   (set_sockets (setReady ws OPEN (sockets h)) h))).
    assert (Hb : Inv b).
    { split; cbn; rewrite ?Hs; unfold maxReconnectAttempts; lia. }
    change (Inv (match readyState ws b with
                 | OPEN => sendPing ws b
                 | _ => b
                 end)).
    destruct (readyState ws b); try exact Hb; framed Hb.
  - (* SocketError *)
    destruct (readyState ws h); try discriminate;
      intros E; injection E as <-; framed HI.
  - (* SocketClose *)
    assert (Hc : isLive (readyState ws h) = true ->
                 Inv (onclose
                        (set_sockets (setReady ws CLOSED (sockets h)) h))).
    { intros Hk; unfold readyState in Hk.
      pose proof (live_nth _ _ Hk) as Hge.
      pose proof (live_setReady ws CLOSED _ Hk) as Hs; simpl in Hs.
      apply onclose_Inv; cbn; rewrite ?Hs; try assumption; try lia.
      destruct (timers h); [reflexivity | simpl in B; lia]. }
    destruct (readyState ws h); try discriminate;
      intros E; injection E as <-; apply Hc; reflexivity.
Qed.

Lemma reachable_Inv h : reachable h -> Inv h.
Proof.
  induction 1 as [now throws | h i h' _ IH Hs].
  - apply mount_Inv.
  - eapply step_Inv; eassumption.
Qed.

Lemma run_reachable inputs h h' :
  reachable h -> run inputs h = Some h' -> reachable h'.
Proof.
  revert h; induction inputs as [|i inputs IH]; intros h Hr; simpl.
  - intros E; injection E as <-; exact Hr.
  - destruct (step i h) as [h1|] eqn:Hs; [|discriminate].
    apply IH; eapply reachable_step; eassumption.
Qed.

(** C2, as the code has it.  While the attempt counter [n] is below 5,
    every close of a socket and every failed construction of one schedules
    exactly one reconnect timer, after the counter went up by one: its
    delay is [min(1000 * 2^(n+1), 10000)] milliseconds.  A successful open
    sets the counter back to 0, so the first reconnect after a fresh
    connection waits 2000 ms. *)
Theorem reconnect_delay_after_increment h n :
  reconnectAttempts h = n ->
  0 <= n < maxReconnectAttempts ->
  let delay := Z.min (1000 * 2 ^ (n + 1)) 10000 in
  (forall ws h', step (SocketClose ws) h = Some h' ->
     timers h' = timers h ++ [(nextTimer h, delay)]
     /\ reconnectAttempts h' = n + 1)
  /\ (isConnecting h = false ->
      timers (connectWebSocket true h) = timers h ++ [(nextTimer h, delay)]
      /\ reconnectAttempts (connectWebSocket true h) = n + 1)
  /\ (forall ws h', step (SocketOpen ws) h = Some h' ->
        reconnectAttempts h' = 0)
  /\ (n = 0 -> delay = 2000).
Proof.
  intros Hn Hlt delay.
  assert (Hltb : (n <? maxReconnectAttempts) = true) by (apply Z.ltb_lt; lia).
  assert (Hleb : (maxReconnectAttempts <=? n) = false)
    by (apply Z.leb_gt; lia).
  split; [|split; [|split]].
  - intros ws h' Hs; simpl in Hs.
    assert (E : h' = onclose (set_sockets (setReady ws CLOSED (sockets h)) h))
      by (destruct (readyState ws h); congruence).
    subst h'; unfold onclose.
    cbn [reconnectAttempts set_wsRef set_isConnecting set_sockets].
    rewrite Hn, Hltb; split; cbn; rewrite ?Hn; reflexivity.
  - intros Hc; unfold connectWebSocket; rewrite Hc, Hn, Hleb.
    cbn [orb].
    set (h1 := match wsRef (set_isConnecting true h) with
               | Some k => set_wsRef None (close k (set_isConnecting true h))
               | None => set_isConnecting true h
               end).
    assert (E1 : reconnectAttempts h1 = n /\ timers h1 = timers h
                 /\ nextTimer h1 = nextTimer h).
    { unfold h1; destruct (wsRef (set_isConnecting true h)) as [k|];
        [unfold close; destruct (readyState k (set_isConnecting true h))|];
        repeat split; exact Hn. }
    destruct E1 as (Ea & Et & En).
    cbn [reconnectAttempts set_isConnecting]; rewrite Ea, Hltb.
    destruct (planReconnect_spec (set_isConnecting false h1))
      as (Pa & Pt & _).
    rewrite Pa, Pt; cbn [reconnectAttempts timers nextTimer set_isConnecting].
    rewrite Ea, Et, En; split; reflexivity.
  - intros ws h' Hs; simpl in Hs.
    destruct (readyState ws h); try discriminate.
    injection Hs as <-; unfold onopen.
    match goal with
    | |- reconnectAttempts (match ?r with _ => _ end) = 0 => destruct r
    end; reflexivity.
  - intros ->; reflexivity.
Qed.

(** [onopen] itself leaves the timers alone: the page cancels a reconnect
    timer nowhere while it is mounted. *)
Lemma onopen_keeps_timers ws h : timers (onopen ws h) = timers h.
Proof.
  unfold onopen.
  destruct (readyState ws (set_reconnectAttempts 0 (set_isConnecting false h)));
    reflexivity.
Qed.


Lemma takeTimer_incl handle l rest :
  takeTimer handle l = Some rest -> incl rest l.
Proof.
  revert rest; induction l as [|[h' d] l IH]; intros rest; simpl.
  - discriminate.
  - destruct (Nat.eqb h' handle).
    + intros E; injection E as <-; apply incl_tl, incl_refl.
    + destruct (takeTimer handle l) as [rest'|]; [|discriminate].
      intros E; injection E as <-.
      apply incl_cons; [left; reflexivity | apply incl_tl, IH; reflexivity].
Qed.

(** One step from an exhausted budget: nothing is scheduled, nothing is
    constructed, the counter stays. *)
Lemma step_exhausted i h h' :
  Inv h -> reconnectAttempts h = maxReconnectAttempts ->
  step i h = Some h' ->
  reconnectAttempts h' = maxReconnectAttempts
  /\ nextTimer h' = nextTimer h
  /\ sockets h' = sockets h
  /\ incl (timers h') (timers h).
Proof.
  intros [A B C] Hmax; pose proof (C Hmax) as Hdead.
  assert (Hclosed : forall ws, readyState ws h = CLOSED)
    by (intros ws; apply live_none, Hdead).
  destruct (besideConnection i) eqn:Hi.
  { intros Hs; apply (step_leaves_connection i) in Hs; [|exact Hi].
    unfold connection in Hs; injection Hs as _ _ _ Ha Hs Ht Hn.
    rewrite Ha, Hs, Ht, Hn; repeat split; [exact Hmax | apply incl_refl]. }
  destruct i; try discriminate Hi; simpl; rewrite ?Hclosed;
    try discriminate.
  destruct (takeTimer handle (timers h)) as [rest|] eqn:Ht; [|discriminate].
  intros E; injection E as <-.
  rewrite connectWebSocket_exhausted by (cbn; lia).
  repeat split; [exact Hmax | apply (takeTimer_incl _ _ _ Ht)].
Qed.

Lemma run_exhausted inputs h h' :
  reachable h -> reconnectAttempts h = maxReconnectAttempts ->
  run inputs h = Some h' ->
  reconnectAttempts h' = maxReconnectAttempts
  /\ nextTimer h' = nextTimer h
  /\ sockets h' = sockets h
  /\ incl (timers h') (timers h).
Proof.
  revert h; induction inputs as [|i inputs IH]; intros h Hr Hmax; simpl.
  - intros E; injection E as <-.
    repeat split; [exact Hmax | apply incl_refl].
  - destruct (step i h) as [h1|] eqn:Hs; [|discriminate].
    intros Hrun.
    destruct (step_exhausted i h h1 (reachable_Inv h Hr) Hmax Hs)
      as (Ha & Hn & Hsock & Hincl).
    destruct (IH h1 (reachable_step _ _ _ Hr Hs) Ha Hrun)
      as (Ha' & Hn' & Hsock' & Hincl').
    repeat split; try congruence.
    eapply incl_tran; eassumption.
Qed.

Lemma onclose_exhausted h :
  maxReconnectAttempts <= reconnectAttempts h ->
  onclose h = set_wsRef None (set_isConnecting false h).
Proof.
  intros Hge; unfold onclose.
  cbn [reconnectAttempts set_wsRef set_isConnecting].
  destruct (reconnectAttempts h <? maxReconnectAttempts) eqn:E;
    [apply Z.ltb_lt in E; lia | reflexivity].
Qed.

(** C7.  From a reachable state whose attempt counter is 5, whatever
    happens next (timers that fire, clicks, responses): the counter stays
    5, no reconnect timer is scheduled, no socket is constructed and every
    socket is closed, so no close, error or open event can come;
    [connectWebSocket] returns without doing anything, and [onclose] and
    [onerror], were they called, would schedule nothing. *)
Theorem exhausted_budget_is_final h :
  reachable h ->
  reconnectAttempts h = maxReconnectAttempts ->
  forall inputs h', run inputs h = Some h' ->
    reconnectAttempts h' = maxReconnectAttempts
    /\ nextTimer h' = nextTimer h
    /\ incl (timers h') (timers h)
    /\ sockets h' = sockets h
    /\ (forall ws, readyState ws h' = CLOSED)
    /\ (forall throws, connectWebSocket throws h' = h')
    /\ (timers (onclose h') = timers h'
        /\ reconnectAttempts (onclose h') = maxReconnectAttempts
        /\ timers (onerror h') = timers h')
    /\ (forall ws, step (SocketClose ws) h' = None
                   /\ step (SocketError ws) h' = None
                   /\ step (SocketOpen ws) h' = None).
Proof.
  intros Hr Hmax inputs h' Hrun.
  destruct (run_exhausted inputs h h' Hr Hmax Hrun) as (Ha & Hn & Hs & Hi).
  pose proof (reachable_Inv h' (run_reachable inputs h h' Hr Hrun))
    as [A B C].
  assert (Hclosed : forall ws, readyState ws h' = CLOSED)
    by (intros ws; apply live_none, C, Ha).
  split; [exact Ha|]; split; [exact Hn|]; split; [exact Hi|].
  split; [exact Hs|]; split; [exact Hclosed|]; split; [|split].
  - intros throws; apply connectWebSocket_exhausted; lia.
  - rewrite onclose_exhausted by lia; repeat split; exact Ha.
  - intros ws; simpl; rewrite Hclosed; repeat split.
Qed.

End WithHost.

(** *** On the UTC host *)

Import Scenario.
#[local] Existing Instance Utc.host.

Lemma loaded_reachable : reachable loaded.
Proof.
  apply (run_reachable
           [SocketOpen 0%nat; Settle 0%nat (Events [standup; review; retro]);
            Settle 0%nat (Events [standup; review; retro])]
           (mount monday false)).
  - apply reachable_mount.
  - vm_compute; reflexivity.
Qed.

Lemma sync_complete_defaults_witness :
  Js.get emptyPayloadMessage "type" = Some (Js.Str "sync_complete")
  /\ syncStatus (onmessage (Some emptyPayloadMessage) loaded) = emptyStatus.
Proof.
  split; [reflexivity|].
  destruct (sync_complete_defaults emptyPayloadMessage loaded eq_refl)
    as (_ & _ & _ & _ & _ & _ & _ & _ & Hempty & _).
  apply Hempty; reflexivity.
Defined.

(** A partial payload: the counts that are missing read 0, the rest is
    kept. *)
Example sync_complete_partial :
  syncStatus
    (onmessage
       (Some (Js.Obj [("type", Js.Str "sync_complete");
                      ("data", Js.Obj [("success", Js.Bool true);
                                       ("new_events", Js.Num 3);
                                       ("errors", Js.Null)])]))
       loaded)
  = {| success := Js.Bool true; new_events := Js.Num 3;
       updated_events := Js.Num 0; deleted_events := Js.Num 0;
       errors := Js.Arr [] |}.
Proof. reflexivity. Qed.

Lemma futureMessage_declares lit :
  lit <> "event_created" -> ~ declares futureMessage lit.
Proof.
  intros Hne (data & Hd & Ht); unfold futureMessage in Hd.
  injection Hd as <-; simpl in Ht; congruence.
Qed.

Lemma unrecognized_message_ignored_witness :
  (~ declares futureMessage "connection_established"
   /\ ~ declares futureMessage "sync_complete"
   /\ ~ declares futureMessage "pong"
   /\ ~ declares futureMessage "ping")
  /\ onmessage futureMessage loaded = loaded.
Proof.
  assert (Hc : ~ declares futureMessage "connection_established")
    by (apply futureMessage_declares; discriminate).
  assert (Hs : ~ declares futureMessage "sync_complete")
    by (apply futureMessage_declares; discriminate).
  assert (Hp : ~ declares futureMessage "pong")
    by (apply futureMessage_declares; discriminate).
  assert (Hq : ~ declares futureMessage "ping")
    by (apply futureMessage_declares; discriminate).
  split; [repeat split; assumption|].
  apply (unrecognized_message_ignored futureMessage loaded Hc Hs Hp Hq).
Defined.

(** Frames without a type, without an object, or that do not parse are
    dropped the same way. *)
Example malformed_frames_dropped :
  onmessage None loaded = loaded
  /\ onmessage (Some Js.Null) loaded = loaded
  /\ onmessage (Some (Js.Obj [])) loaded = loaded
  /\ onmessage (Some (Js.Obj [("type", Js.Str "ping")])) loaded = loaded.
Proof. repeat split. Qed.

Lemma fetch_failure_clears_events_witness :
  nth_error (inflight refetching) 0 = Some (AwaitFetch getWeekEvents)
  /\ events refetching = [standup; review; retro]
  /\ exists h',
       step (Settle 0%nat (Rejected (IsError "Network Error"))) refetching
       = Some h'
       /\ events h' = []
       /\ error h' = Some "Network Error"
       /\ error h' <> None
       /\ errorShown h' = true.
Proof.
  split; [reflexivity|]; split; [reflexivity|].
  destruct (fetch_failure_clears_events refetching 0%nat getWeekEvents
              (IsError "Network Error") eq_refl)
    as (h' & Hs & He & Hm & Hn & Hv).
  exists h'; split; [exact Hs | split; [exact He | split; [exact Hm|]]].
  split; [exact Hn|].
  destruct (errorShown h'); [reflexivity|].
  discriminate (proj1 Hv eq_refl).
Defined.

(** C5 fails on the code: the API call is rejected with an [Error] whose
    message is empty; the events are cleared, the error is the empty
    string, and the page shows no message. *)
Lemma fetch_failure_empty_message_hidden :
  nth_error (inflight refetching) 0 = Some (AwaitFetch getWeekEvents)
  /\ exists h',
       step (Settle 0%nat (Rejected (IsError ""))) refetching = Some h'
       /\ events h' = []
       /\ error h' = Some ""
       /\ errorShown h' = false.
Proof.
  split; [reflexivity|].
  eexists; split; [vm_compute; reflexivity|].
  split; [reflexivity|]; split; reflexivity.
Qed.

(** C6 fails on the code: in the day view, the fetch for Monday is issued,
    then the fetch for Tuesday; Tuesday's answer arrives first, Monday's
    last, and the page shows Monday's events under the Tuesday selection. *)
Lemma superseded_fetch_overwrites :
  exists h,
    run [ClickRange day; Settle 0%nat (Events []); DeferredFetch 0%nat;
         Settle 0%nat (Events []);
         SelectDate monday; SelectDate tuesday;
         Settle 1%nat (Events [review; retro]);
         Settle 0%nat (Events [standup])] loaded = Some h
    /\ selectedDate h = tuesday
    /\ selectedDateRange h = day
    /\ inflight h = []
    /\ events h = [standup]
    /\ events h <> [review; retro].
Proof.
  eexists; split; [vm_compute; reflexivity|].
  repeat split; discriminate.
Qed.

Lemma last_resolved_fetch_wins_witness :
  ((0 < 1)%nat
   /\ nth_error (inflight twoFetches) 0
      = Some (AwaitFetch (getEventsForRange 1740960000000 1741046399999))
   /\ nth_error (inflight twoFetches) 1
      = Some (AwaitFetch (getEventsForRange 1741046400000 1741132799999)))
  /\ exists h1 h2,
       step (Settle 1%nat (Events [review; retro])) twoFetches = Some h1
       /\ events h1 = [review; retro]
       /\ step (Settle 0%nat (Events [standup])) h1 = Some h2
       /\ events h2 = [standup]
       /\ selectedDate h2 = selectedDate twoFetches
       /\ selectedDateRange h2 = selectedDateRange twoFetches.
Proof.
  split; [repeat split; lia|].
  apply (last_resolved_fetch_wins twoFetches 0%nat 1%nat
           (getEventsForRange 1740960000000 1741046399999)
           (getEventsForRange 1741046400000 1741132799999)
           [standup] [review; retro]); [lia | reflexivity | reflexivity].
Defined.

(** C2 fails on the code: a fresh connection, its counter at 0, closes;
    the timer that is scheduled waits 2000 ms, not the 1000 ms of
    [min(1000 * 2^0, 10000)]. *)
Lemma first_reconnect_waits_2000 :
  reconnectAttempts loaded = 0
  /\ reconnectDelay (reconnectAttempts loaded) = 1000
  /\ exists h,
       step (SocketClose 0%nat) loaded = Some h
       /\ timers h = [(0%nat, 2000)]
       /\ timers h <> [(0%nat, reconnectDelay (reconnectAttempts loaded))].
Proof.
  split; [reflexivity|]; split; [reflexivity|].
  eexists; split; [vm_compute; reflexivity|].
  split; [reflexivity | discriminate].
Qed.

Lemma reconnect_delay_after_increment_witness :
  (reconnectAttempts loaded = 0 /\ 0 <= 0 < maxReconnectAttempts)
  /\ forall ws h', step (SocketClose ws) loaded = Some h' ->
       timers h' = timers loaded ++ [(nextTimer loaded, 2000)]
       /\ reconnectAttempts h' = 0 + 1.
Proof.
  assert (Hrange : 0 <= 0 < maxReconnectAttempts)
    by (unfold maxReconnectAttempts; lia).
  split; [split; [reflexivity | exact Hrange]|].
  exact (proj1 (reconnect_delay_after_increment loaded 0 eq_refl Hrange)).
Defined.

(** The five delays of a connection that keeps failing. *)
Example delays_of_five_failures :
  exists h,
    run [SocketClose 0%nat; TimerFired 0%nat true; TimerFired 1%nat true;
         TimerFired 2%nat true; TimerFired 3%nat true] loaded = Some h
    /\ reconnectAttempts h = 5
    /\ timers h = [(4%nat, 10000)]
    /\ map (fun n => Z.min (1000 * 2 ^ (n + 1)) 10000) [0; 1; 2; 3; 4]
       = [2000; 4000; 8000; 10000; 10000].
Proof.
  eexists; split; [vm_compute; reflexivity|].
  repeat split.
Qed.




(** The socket closes, a timer is set, it fires, the new socket opens:
    the counter is back at 0 and nothing is pending. *)
Example reconnect_then_open :
  exists h,
    run [SocketClose 0%nat; TimerFired 0%nat false; SocketOpen 1%nat] loaded
    = Some h
    /\ reconnectAttempts h = 0 /\ timers h = [] /\ wsRef h = Some 1%nat
    /\ sockets h = [CLOSED; OPEN].
Proof. eexists; split; [vm_compute; reflexivity | repeat split]. Qed.

Lemma exhausted_reachable : reachable exhausted.
Proof.
  apply (run_reachable exhausting loaded);
    [apply loaded_reachable | vm_compute; reflexivity].
Qed.

Lemma exhausted_budget_is_final_witness :
  (reachable exhausted /\ reconnectAttempts exhausted = maxReconnectAttempts)
  /\ exists h',
       run [TimerFired 4%nat false; HeartbeatTick; ClickSync] exhausted
       = Some h'
       /\ reconnectAttempts h' = maxReconnectAttempts
       /\ nextTimer h' = nextTimer exhausted
       /\ sockets h' = sockets exhausted
       /\ timers h' = [].
Proof.
  split; [split; [exact exhausted_reachable | reflexivity]|].
  eexists; split; [vm_compute; reflexivity|].
  destruct (exhausted_budget_is_final exhausted exhausted_reachable eq_refl
              [TimerFired 4%nat false; HeartbeatTick; ClickSync] _ eq_refl)
    as (Ha & Hn & _ & Hs & _).
  split; [exact Ha | split; [exact Hn | split; [exact Hs | reflexivity]]].
Defined.

(** C1 on the code: the sync call answers, the status is shown, and the
    flag is still up; the button, disabled while syncing, cannot start a
    second sync. *)
Example sync_answered_flag_up :
  exists h,
    run [ClickSync;
         Settle 0%nat
           (SyncData (Js.Obj [("success", Js.Bool true);
                              ("new_events", Js.Num 3);
                              ("updated_events", Js.Num 1);
                              ("deleted_events", Js.Num 0);
                              ("errors", Js.Arr [])]))] loaded = Some h
    /\ new_events (syncStatus h) = Js.Num 3
    /\ inflight h = []
    /\ syncing h = true
    /\ step ClickSync h = None.
Proof. eexists; split; [vm_compute; reflexivity | repeat split]. Qed.

(** C9 on the code.  Each successful response writes the array of the
    render its click happened in, filtered, over the cached events.  Two
    events deleted one right after the other: the second response brings
    the first event back.  A fetch answered while the deletion is in
    flight: the response drops the event the fetch had added. *)
Theorem delete_writes_stale_events :
  (exists h,
     run [ClickDelete "e1"; ClickDelete "e2";
          Settle 0%nat (DeleteResponse true None);
          Settle 0%nat (DeleteResponse true None)] loaded = Some h
     /\ events loaded = [standup; review; retro]
     /\ inflight h = []
     /\ events h = [standup; retro]
     /\ events h <> without "e2" (without "e1" (events loaded)))
  /\ (exists h0 h,
        run [ClickDelete "e1"; SocketMessage 0%nat (Some emptyPayloadMessage);
             Settle 1%nat (Events [standup; review; retro; planning])]
          loaded = Some h0
        /\ events h0 = [standup; review; retro; planning]
        /\ step (Settle 0%nat (DeleteResponse true None)) h0 = Some h
        /\ events h = [review; retro]
        /\ events h <> without "e1" (events h0)).
Proof.
  split.
  - eexists; split; [vm_compute; reflexivity|].
    repeat split; discriminate.
  - eexists; eexists; split; [vm_compute; reflexivity|].
    split; [reflexivity|]; split; [vm_compute; reflexivity|].
    split; [reflexivity | discriminate].
Qed.

Example single_delete :
  exists h,
    run [ClickDelete "e2"; Settle 0%nat (DeleteResponse true None)] loaded
    = Some h
    /\ events h = [standup; retro] /\ error h = None.
Proof. eexists; split; [vm_compute; reflexivity | repeat split]. Qed.

End PageFacts.

(** ** The earlier revision of the page *)

Module EarlierPageFacts.

(** In the earlier revision a failed fetch only sets the error, and a
    [sync_complete] message stores [data.stats] as it comes, so a missing
    payload leaves no status at all; as in the later revision, a
    successful sync response leaves the syncing flag up. *)
Lemma earlier_revision_differs :
  (forall h err,
     EarlierPage.events (EarlierPage.fetchEvents_resume (inr err) h)
     = EarlierPage.events h)
  /\ (forall h,
        EarlierPage.syncStatus
          (EarlierPage.sync_complete
             (Js.Obj [("type", Js.Str "sync_complete")]) h)
        = Js.Undefined)
  /\ (forall h data,
        EarlierPage.syncing (EarlierPage.handleSync_resume (inl data) h)
        = EarlierPage.syncing h).
Proof. repeat split. Qed.

End EarlierPageFacts.

(** * More properties *)

(** ** The event list *)

Module EventListMoreFacts.
Import EventList EventListSpec.

Section WithHost.
Context {H : Host}.

Lemma keep_dated date dateRange e : keep date dateRange e = true -> dated e.
Proof.
  unfold keep, dated; destruct (Date_parse (start_time e)) as [t|];
    [exists t; reflexivity | discriminate].
Qed.

Lemma filter_all {A} (f : A -> bool) l :
  (forall x, In x l -> f x = true) -> filter f l = l.
Proof.
  induction l as [|x l IH]; intros Hall; simpl; [reflexivity|].
  rewrite (Hall x (or_introl eq_refl)), IH; [reflexivity|].
  intros y Hy; apply Hall; right; exact Hy.
Qed.

Lemma insert_first x l :
  Forall (startsNoLater x) l -> insert compareFn x l = x :: l.
Proof.
  destruct 1 as [|y l (tx & ty & Hx & Hy & Hle) _]; simpl; [reflexivity|].
  unfold compareFn; rewrite Hx, Hy.
  destruct (tx - ty <=? 0) eqn:E; [reflexivity | apply Z.leb_gt in E; lia].
Qed.

Lemma sort_of_sorted l :
  StronglySorted startsNoLater l -> sort compareFn l = l.
Proof.
  induction 1 as [|x l _ IH Hx]; simpl; [reflexivity|].
  rewrite IH; apply insert_first, Hx.
Qed.

(** X1.  Filtering and sorting the shown list again, for the same date and
    range, gives the shown list: the list is a fixed point of the
    component's filter and sort. *)
Theorem filteredEvents_idempotent events date dateRange :
  filteredEvents (filteredEvents events date dateRange) date dateRange
  = filteredEvents events date dateRange.
Proof.
  unfold filteredEvents.
  set (kept := filter (keep date dateRange) events).
  assert (Hk : forall e, In e (sort compareFn kept) ->
                         keep date dateRange e = true).
  { intros e He.
    apply (Permutation_in _ (EventListFacts.sort_Permutation _ kept)) in He.
    apply filter_In in He; apply He. }
  rewrite (filter_all _ _ Hk).
  apply sort_of_sorted, EventListFacts.sort_sorted.
  apply Forall_forall; intros e He.
  apply (keep_dated date dateRange), filter_In with (l := events), He.
Qed.

Lemma startsAt_same t x y :
  startsAt t x = true -> startsAt t y = true -> compareFn x y = 0.
Proof.
  unfold startsAt, compareFn.
  destruct (Date_parse (start_time x)) as [tx|]; [|discriminate].
  destruct (Date_parse (start_time y)) as [ty|]; [|discriminate].
  rewrite !Z.eqb_eq; lia.
Qed.

Lemma filter_insert t x l :
  filter (startsAt t) (insert compareFn x l) = filter (startsAt t) (x :: l).
Proof.
  induction l as [|y l IH]; [reflexivity|].
  cbn [insert]; destruct (compareFn x y <=? 0) eqn:E; [reflexivity|].
  apply Z.leb_gt in E.
  cbn [filter] in *; rewrite IH.
  destruct (startsAt t x) eqn:Hx, (startsAt t y) eqn:Hy; try reflexivity.
  rewrite (startsAt_same t x y Hx Hy) in E; lia.
Qed.

(** X2.  The sort is stable: the shown events that start at one and the
    same instant come in the order they have in the events array. *)
Theorem ties_keep_array_order events date dateRange t :
  filter (startsAt t) (filteredEvents events date dateRange)
  = filter (startsAt t) (filter (keep date dateRange) events).
Proof.
  unfold filteredEvents.
  induction (filter (keep date dateRange) events) as [|x l IH];
    [reflexivity|].
  cbn [sort]; rewrite filter_insert; cbn [filter]; rewrite IH; reflexivity.
Qed.

End WithHost.
End EventListMoreFacts.

(** ** The calendar *)

Module CalendarFacts.
Import EventList Calendar.

Section WithHost.
Context {H : Host} {L : HostLaws}.

Lemma isSameDay_keep d e :
  isSameDay (Date_parse (start_time e)) d = keep d day e.
Proof.
  unfold isSameDay, keep.
  destruct (Date_parse (start_time e)) as [t|]; [|reflexivity].
  apply eq_true_iff_eq.
  rewrite Z.eqb_eq, <- day_law, !andb_true_iff, !Z.eqb_eq; tauto.
Qed.

Lemma dayEvents_keep events d : dayEvents events d = filter (keep d day) events.
Proof. apply filter_ext; intros e; apply isSameDay_keep. Qed.

(** X3.  On a host that keeps the laws, the events behind a day cell of
    the calendar are the events the list shows in its day view of that
    day: a day of the displayed month carries the mark exactly when its
    day list is not empty, and a day outside the month never does. *)
Theorem mark_agrees_with_day_list events d :
  Permutation (filteredEvents events d day) (dayEvents events d)
  /\ (marked events d false = true <-> filteredEvents events d day <> [])
  /\ marked events d true = false.
Proof.
  assert (Hp : Permutation (filteredEvents events d day) (dayEvents events d)).
  { rewrite dayEvents_keep; apply EventListFacts.sort_Permutation. }
  split; [exact Hp|]; split; [|reflexivity].
  unfold marked; cbn [negb andb]; rewrite Z.ltb_lt.
  rewrite <- (Permutation_length Hp).
  destruct (filteredEvents events d day); simpl; split;
    try lia; try congruence; intros _; discriminate.
Qed.

End WithHost.

Import Scenario.
#[local] Existing Instance Utc.host.

Lemma mark_agrees_with_day_list_witness :
  Permutation (filteredEvents sample wednesday day)
    (dayEvents sample wednesday)
  /\ map id (dayEvents sample wednesday) = ["late"; "early"]
  /\ marked sample wednesday false = true.
Proof.
  destruct (mark_agrees_with_day_list (L := UtcFacts.laws) sample wednesday)
    as (Hp & _ & _).
  split; [exact Hp|]; split; vm_compute; reflexivity.
Defined.

End CalendarFacts.

(** ** The page *)

Module PageMoreFacts.
Import Page PageSpec PageInvariants Unmount.
Import PageFacts.

Section WithHost.
Context {H : Host}.

Ltac branches :=
  repeat match goal with
         | |- context [match ?x with _ => _ end] => destruct x
         end.

Ltac unchanged :=
  branches; try discriminate;
  let E := fresh in intros E; injection E as <-;
  try reflexivity; simpl; branches; reflexivity.

(** *** Sockets *)

Lemma length_setReady k r l : List.length (setReady k r l) = List.length l.
Proof.
  revert k; induction l as [|x l IH]; intros [|k]; simpl; try reflexivity.
  rewrite IH; reflexivity.
Qed.

Lemma live_in_range k l :
  isLive (nth k l CLOSED) = true -> (k < List.length l)%nat.
Proof.
  revert k; induction l as [|x l IH]; intros [|k]; simpl;
    try discriminate; intros Hk; [lia | apply IH in Hk; lia].
Qed.

Lemma nth_setReady_cases k ws r l :
  nth k (setReady ws r l) CLOSED = r
  \/ nth k (setReady ws r l) CLOSED = nth k l CLOSED.
Proof.
  revert k ws; induction l as [|x l IH]; intros [|k] [|ws]; simpl; auto.
Qed.

Lemma nth_setReady_same ws r l :
  (ws < List.length l)%nat -> nth ws (setReady ws r l) CLOSED = r.
Proof.
  revert ws; induction l as [|x l IH]; intros [|ws]; simpl; intros Hlt;
    try lia; [reflexivity | apply IH; lia].
Qed.

(** With one socket left, after its state changes every state is known. *)
Lemma nth_setReady_single k ws r l :
  (live l <= 1)%nat -> isLive (nth ws l CLOSED) = true ->
  nth k (setReady ws r l) CLOSED = if Nat.eqb k ws then r else CLOSED.
Proof.
  revert k ws; induction l as [|x l IH]; intros k ws Hl Hws.
  - destruct ws; discriminate.
  - destruct ws as [|ws]; simpl in Hws.
    + simpl in Hl; rewrite Hws in Hl.
      destruct k as [|k]; simpl; [reflexivity|].
      apply live_none; lia.
    + pose proof (live_nth _ _ Hws) as Hge.
      simpl in Hl; destruct (isLive x) eqn:Hx; [lia|].
      destruct k as [|k]; simpl.
      * destruct x; try discriminate; reflexivity.
      * apply IH; [lia | exact Hws].
Qed.

Lemma nth_single k ws l :
  (live l <= 1)%nat -> isLive (nth ws l CLOSED) = true -> k <> ws ->
  nth k l CLOSED = CLOSED.
Proof.
  revert k ws; induction l as [|x l IH]; intros k ws Hl Hws Hne.
  - destruct k; reflexivity.
  - simpl in Hl; destruct ws as [|ws], k as [|k]; simpl in *; try lia.
    + rewrite Hws in Hl; apply live_none; lia.
    + pose proof (live_nth _ _ Hws).
      destruct x; simpl in Hl; try lia; reflexivity.
    + pose proof (live_nth _ _ Hws).
      apply (IH k ws); [destruct (isLive x); lia | exact Hws | lia].
Qed.

Lemma nth_new k r l :
  live l = 0%nat ->
  nth k (l ++ [r]) CLOSED = if Nat.eqb k (List.length l) then r else CLOSED.
Proof.
  intros Hl; destruct (Nat.eqb_spec k (List.length l)) as [-> | Hne].
  - rewrite app_nth2, Nat.sub_diag by lia; reflexivity.
  - destruct (Nat.lt_ge_cases k (List.length l)) as [Hlt | Hge].
    + rewrite app_nth1 by exact Hlt; apply live_none, Hl.
    + apply nth_overflow; rewrite length_app; simpl; lia.
Qed.

(** *** How the connection manager hangs together *)

Lemma Wired_connection h h' :
  connection h' = connection h -> Wired h -> Wired h'.
Proof.
  unfold connection; intros E [A B C D F G].
  injection E as Ew Er Ec Ea Es Et _.
  split; unfold readyState in *; rewrite ?Ew, ?Er, ?Ec, ?Ea, ?Es, ?Et;
    assumption.
Qed.

(** No socket is left. *)
Lemma Wired_dead h :
  (forall k, readyState k h = CLOSED) ->
  wsRef h = None -> isConnecting h = false ->
  (forall t d, In (t, d) (timers h) ->
     reconnectTimeout h = Some t /\ 1 <= reconnectAttempts h
     /\ d = reconnectDelay (reconnectAttempts h)) ->
  Wired h.
Proof.
  intros Hc Hw Hi Ht; split.
  - intros k Hk; rewrite Hc in Hk; discriminate.
  - intros k Hk; congruence.
  - intros t d Hin; apply (Ht t d Hin).
  - intros t d Hin; apply (Ht t d Hin).
  - congruence.
  - intros k Hk; rewrite Hc in Hk; discriminate.
Qed.

(** One socket is left: [ws], in state [r]. *)
Lemma Wired_alive h ws r :
  (forall k, readyState k h = if Nat.eqb k ws then r else CLOSED) ->
  isLive r = true -> wsRef h = Some ws -> timers h = [] ->
  (isConnecting h = true -> r = CONNECTING) ->
  (r = OPEN -> reconnectAttempts h = 0) ->
  Wired h.
Proof.
  intros Hc Hr Hw Ht Hi Ho.
  assert (Hself : readyState ws h = r)
    by (rewrite Hc, Nat.eqb_refl; reflexivity).
  split.
  - intros k Hk; rewrite Hc in Hk.
    destruct (Nat.eqb_spec k ws); [congruence | discriminate].
  - intros k Hk; rewrite Hw in Hk; injection Hk as <-.
    rewrite Hself; exact Hr.
  - intros t d Hin; rewrite Ht in Hin; destruct Hin.
  - intros t d Hin; rewrite Ht in Hin; destruct Hin.
  - intros Hcon; exists ws; split; [exact Hw|].
    rewrite Hself; apply Hi, Hcon.
  - intros k Hk; rewrite Hc in Hk.
    destruct (Nat.eqb_spec k ws); [apply Ho, Hk | discriminate].
Qed.

Lemma Wired_no_socket h :
  Wired h -> live (sockets h) = 0%nat ->
  (forall k, readyState k h = CLOSED)
  /\ wsRef h = None /\ isConnecting h = false.
Proof.
  intros W Hl.
  assert (Hc : forall k, readyState k h = CLOSED)
    by (intros k; apply live_none, Hl).
  split; [exact Hc|]; split.
  - destruct (wsRef h) as [k|] eqn:Hw; [|reflexivity].
    pose proof (ref_named h W k Hw) as Hk; rewrite Hc in Hk; discriminate.
  - destruct (isConnecting h) eqn:Hi; [|reflexivity].
    destruct (connecting h W Hi) as (k & _ & Hk).
    rewrite Hc in Hk; discriminate.
Qed.

Lemma connectWebSocket_Wired throws h :
  0 <= reconnectAttempts h ->
  (forall k, readyState k h = CLOSED) ->
  live (sockets h) = 0%nat ->
  wsRef h = None -> isConnecting h = false -> timers h = [] ->
  Wired (connectWebSocket throws h).
Proof.
  intros H0 Hc Hl Hw Hi Ht; unfold connectWebSocket; rewrite Hi.
  cbn [orb].
  destruct (maxReconnectAttempts <=? reconnectAttempts h) eqn:Hmax.
  { apply Wired_dead; try assumption.
    intros t d Hin; rewrite Ht in Hin; destruct Hin. }
  apply Z.leb_gt in Hmax.
  cbn [wsRef set_isConnecting]; rewrite Hw.
  destruct throws.
  - cbn [reconnectAttempts set_isConnecting].
    destruct (reconnectAttempts h <? maxReconnectAttempts) eqn:Hlt;
      [|apply Z.ltb_ge in Hlt; lia].
    apply Wired_dead; [exact Hc | exact Hw | reflexivity |].
    cbn; rewrite Ht; intros t d [E | []]; injection E as <- <-.
    repeat split; lia.
  - apply (Wired_alive _ (List.length (sockets h)) CONNECTING);
      try reflexivity.
    + intros k; unfold readyState; cbn; apply nth_new, Hl.
    + exact Ht.
    + discriminate.
Qed.

Lemma mount_Wired now throws : Wired (mount now throws).
Proof.
  unfold mount, selectionEffect.
  apply (Wired_connection (connectWebSocket throws (initial now)));
    [reflexivity|].
  apply connectWebSocket_Wired; try reflexivity; cbn; try lia.
  intros [|k]; reflexivity.
Qed.

Lemma step_Wired i h h' :
  Inv h -> Wired h -> step i h = Some h' -> Wired h'.
Proof.
  intros HI W; pose proof HI as [A B C].
  destruct (besideConnection i) eqn:Hi.
  { intros Hs; apply (Wired_connection h);
      [apply (step_leaves_connection i) | ]; assumption. }
  destruct i; try discriminate Hi; simpl.
  - (* TimerFired *)
    destruct (takeTimer handle (timers h)) as [rest|] eqn:Ht; [|discriminate].
    intros E; injection E as <-.
    apply takeTimer_length in Ht.
    assert (Hr : rest = [])
      by (destruct rest; [reflexivity | simpl in Ht; lia]).
    assert (Hl : live (sockets h) = 0%nat) by lia.
    destruct (Wired_no_socket h W Hl) as (Hc & Hw & Hcon).
    subst rest; apply connectWebSocket_Wired; try assumption;
      try reflexivity; cbn; lia.
  - (* SocketOpen *)
    destruct (readyState ws h) eqn:Hr; try discriminate.
    intros E; injection E as <-.
    assert (Hk : isLive (nth ws (sockets h) CLOSED) = true)
      by (unfold readyState in Hr; rewrite Hr; reflexivity).
    pose proof (live_nth _ _ Hk) as Hge.
    assert (Hall : forall k,
               nth k (setReady ws OPEN (sockets h)) CLOSED
               = if Nat.eqb k ws then OPEN else CLOSED)
      by (intros k; apply nth_setReady_single; [lia | exact Hk]).
    assert (Hw : wsRef h = Some ws)
      by (apply (ref_live h W); unfold readyState; exact Hk).
    set (b := set_reconnectAttempts 0
                (set_isConnecting false
                   (set_sockets (setReady ws OPEN (sockets h)) h))).
    assert (Hb : Wired b).
    { apply (Wired_alive _ ws OPEN); try reflexivity.
      - exact Hall.
      - exact Hw.
      - cbn; destruct (timers h); [reflexivity | simpl in B; lia].
      - discriminate. }
    change (Wired (match readyState ws b with
                   | OPEN => sendPing ws b
                   | _ => b
                   end)).
    destruct (readyState ws b); try exact Hb;
      apply (Wired_connection b); [reflexivity | exact Hb].
  - (* SocketError *)
    assert (He : Wired (onerror h)).
    { destruct W as [W1 W2 W3 W4 W5 W6]; split; try assumption.
      discriminate. }
    destruct (readyState ws h); try discriminate;
      intros E; injection E as <-; exact He.
  - (* SocketClose *)
    assert (Hc : isLive (readyState ws h) = true ->
                 Wired (onclose
                          (set_sockets (setReady ws CLOSED (sockets h)) h))).
    { intros Hk; unfold readyState in Hk.
      pose proof (live_nth _ _ Hk) as Hge.
      assert (Hall : forall k,
                 nth k (setReady ws CLOSED (sockets h)) CLOSED = CLOSED).
      { intros k; rewrite nth_setReady_single by (lia || exact Hk).
        destruct (Nat.eqb k ws); reflexivity. }
      assert (Ht : timers h = [])
        by (destruct (timers h); [reflexivity | simpl in B; lia]).
      unfold onclose.
      cbn [reconnectAttempts set_wsRef set_isConnecting set_sockets].
      destruct (reconnectAttempts h <? maxReconnectAttempts) eqn:Hlt;
        apply Wired_dead; try reflexivity; try exact Hall.
      - cbn; rewrite Ht; intros t d [E | []]; injection E as <- <-.
        repeat split; lia.
      - cbn; rewrite Ht; intros t d []. }
    destruct (readyState ws h); try discriminate;
      intros E; injection E as <-; apply Hc; reflexivity.
Qed.

Lemma reachable_Wired h : reachable h -> Wired h.
Proof.
  induction 1 as [now throws | h i h' Hr IH Hs].
  - apply mount_Wired.
  - eapply step_Wired; [apply reachable_Inv | |]; eassumption.
Qed.

(** X4.  In every state the page reaches at most one socket is not
    closed, and [wsRef.current] is that socket, or null when there is
    none; [isConnecting] is up only while that socket is connecting. *)
Theorem one_socket_named_by_wsRef h :
  reachable h ->
  (forall k, wsRef h = Some k <-> isLive (readyState k h) = true)
  /\ (forall k1 k2,
        isLive (readyState k1 h) = true -> isLive (readyState k2 h) = true ->
        k1 = k2)
  /\ (isConnecting h = true ->
      exists k, wsRef h = Some k /\ readyState k h = CONNECTING).
Proof.
  intros Hr; pose proof (reachable_Wired h Hr) as W.
  split; [|split].
  - intros k; split; [apply (ref_named h W) | apply (ref_live h W)].
  - intros k1 k2 H1 H2.
    apply (ref_live h W) in H1; apply (ref_live h W) in H2; congruence.
  - apply (connecting h W).
Qed.

Lemma reconnectDelay_bounds n :
  1 <= n <= maxReconnectAttempts -> 2000 <= reconnectDelay n <= 10000.
Proof.
  unfold maxReconnectAttempts; intros Hn.
  assert (E : n = 1 \/ n = 2 \/ n = 3 \/ n = 4 \/ n = 5) by lia.
  destruct E as [-> | [-> | [-> | [-> | ->]]]]; vm_compute;
    split; discriminate.
Qed.

(** X5.  A reconnect timer that is pending is the only one, it is the one
    [reconnectTimeout] holds, and it waits [min(1000 * 2^n, 10000)] ms for
    the current value [n] of the attempt counter: never less than 2000 ms
    and never more than 10000 ms. *)
Theorem pending_timer_is_named_and_bounded h t d :
  reachable h -> In (t, d) (timers h) ->
  timers h = [(t, d)]
  /\ reconnectTimeout h = Some t
  /\ d = reconnectDelay (reconnectAttempts h)
  /\ 2000 <= d <= 10000.
Proof.
  intros Hr Hin.
  pose proof (reachable_Wired h Hr) as W.
  pose proof (reachable_Inv h Hr) as [A B C].
  destruct (timer_delay h W t d Hin) as [H1 Hd].
  split; [|split; [apply (timer_named h W t d Hin) | split; [exact Hd|]]].
  - destruct (timers h) as [|x [|y l]]; simpl in *; try lia.
    destruct Hin as [-> | []]; reflexivity.
  - rewrite Hd; apply reconnectDelay_bounds; lia.
Qed.

(** X6.  When a reconnect timer fires while the counter is below 5, a
    connection attempt always starts, [isConnecting] never being up at
    that moment: a new socket is constructed and [wsRef.current] is set to
    it, or, when the constructor throws, the counter goes up by one and
    the next timer is scheduled. *)
Theorem timer_starts_attempt h t throws h' :
  reachable h ->
  reconnectAttempts h < maxReconnectAttempts ->
  step (TimerFired t throws) h = Some h' ->
  isConnecting h = false
  /\ (throws = false ->
      sockets h' = sockets h ++ [CONNECTING]
      /\ wsRef h' = Some (List.length (sockets h))
      /\ isConnecting h' = true
      /\ timers h' = []
      /\ reconnectAttempts h' = reconnectAttempts h)
  /\ (throws = true ->
      sockets h' = sockets h
      /\ wsRef h' = None
      /\ isConnecting h' = false
      /\ timers h'
         = [(nextTimer h, reconnectDelay (reconnectAttempts h + 1))]
      /\ reconnectAttempts h' = reconnectAttempts h + 1).
Proof.
  intros Hr Hlt; simpl.
  pose proof (reachable_Wired h Hr) as W.
  pose proof (reachable_Inv h Hr) as [A B C].
  destruct (takeTimer t (timers h)) as [rest|] eqn:Ht; [|discriminate].
  intros E; injection E as <-.
  apply takeTimer_length in Ht.
  assert (Hrest : rest = [])
    by (destruct rest; [reflexivity | simpl in Ht; lia]).
  assert (Hl : live (sockets h) = 0%nat) by lia.
  destruct (Wired_no_socket h W Hl) as (Hc & Hw & Hcon).
  subst rest; split; [exact Hcon|].
  unfold connectWebSocket.
  cbn [isConnecting reconnectAttempts wsRef set_timers set_isConnecting].
  rewrite Hcon, Hw.
  assert (Hleb : (maxReconnectAttempts <=? reconnectAttempts h) = false)
    by (apply Z.leb_gt; exact Hlt).
  assert (Hltb : (reconnectAttempts h <? maxReconnectAttempts) = true)
    by (apply Z.ltb_lt; exact Hlt).
  rewrite Hleb; cbn [orb].
  split; intros ->; [repeat split|].
  change (reconnectAttempts (set_isConnecting true (set_timers [] h)))
    with (reconnectAttempts h).
  rewrite Hltb; repeat split; exact Hw.
Qed.

(** X7.  While a socket is open the attempt counter is 0, so whenever an
    open connection is lost the full budget is there: the counter goes to
    1, [wsRef.current] to null, and the one timer scheduled waits
    2000 ms. *)
Theorem open_connection_lost h k :
  reachable h -> readyState k h = OPEN ->
  reconnectAttempts h = 0
  /\ exists h',
       step (SocketClose k) h = Some h'
       /\ reconnectAttempts h' = 1
       /\ wsRef h' = None
       /\ timers h' = [(nextTimer h, 2000)].
Proof.
  intros Hr Hk.
  pose proof (reachable_Wired h Hr) as W.
  pose proof (reachable_Inv h Hr) as [A B C].
  pose proof (open_fresh h W k Hk) as H0.
  split; [exact H0|].
  assert (Hlive : isLive (nth k (sockets h) CLOSED) = true)
    by (unfold readyState in Hk; rewrite Hk; reflexivity).
  apply live_nth in Hlive.
  assert (Ht : timers h = [])
    by (destruct (timers h); [reflexivity | simpl in B; lia]).
  eexists; split; [simpl; rewrite Hk; reflexivity|].
  unfold onclose.
  cbn [reconnectAttempts set_wsRef set_isConnecting set_sockets].
  rewrite H0; cbn; rewrite Ht, H0; repeat split.
Qed.

(** *** Unmounting *)

(** X8.  The cleanup of the mount effect, run in any state the page
    reaches, leaves no reconnect timer pending, sets [wsRef.current] to
    null, and leaves every socket closing or closed; the attempt counter
    and the handlers' requests are not touched. *)
Theorem cleanup_cancels_and_closes h :
  reachable h ->
  timers (cleanup h) = []
  /\ wsRef (cleanup h) = None
  /\ (forall k, readyState k (cleanup h) = CLOSING
                \/ readyState k (cleanup h) = CLOSED)
  /\ reconnectAttempts (cleanup h) = reconnectAttempts h
  /\ beside (cleanup h) = beside h.
Proof.
  intros Hr.
  pose proof (reachable_Wired h Hr) as W.
  pose proof (reachable_Inv h Hr) as [A B C].
  assert (Ht : clearTimeout (reconnectTimeout h) (timers h) = []).
  { destruct (timers h) as [|[t d] [|y l]] eqn:Et; simpl in B; try lia.
    - destruct (reconnectTimeout h); reflexivity.
    - rewrite (timer_named h W t d) by (rewrite Et; left; reflexivity).
      simpl; rewrite Nat.eqb_refl; reflexivity. }
  unfold cleanup; rewrite Ht.
  set (h0 := set_timers [] h).
  change (wsRef h0) with (wsRef h).
  destruct (wsRef h) as [k|] eqn:Hw.
  - pose proof (ref_named h W k Hw) as Hk.
    assert (Hsingle : forall r j,
               nth j (setReady k r (sockets h)) CLOSED
               = if Nat.eqb j k then r else CLOSED).
    { intros r j; apply nth_setReady_single; [|exact Hk].
      pose proof (live_nth _ _ Hk); lia. }
    assert (Hother : forall j, j <> k -> readyState j h = CLOSED).
    { intros j Hj; apply (nth_single j k); [|exact Hk | exact Hj].
      pose proof (live_nth _ _ Hk); lia. }
    unfold close; change (readyState k h0) with (readyState k h).
    destruct (readyState k h) eqn:Hs; try discriminate;
      (split; [reflexivity|]; split; [reflexivity|];
       split; [|split; reflexivity]); intros j; unfold readyState; cbn;
      try (rewrite Hsingle; destruct (Nat.eqb j k); auto).
    destruct (Nat.eqb_spec j k) as [-> | Hj];
      [left; exact Hs | right; apply (Hother j Hj)].
  - split; [reflexivity|]; split; [exact Hw|].
    split; [|split; reflexivity].
    intros k; right; change (readyState k h0) with (readyState k h).
    destruct (readyState k h) eqn:Hs; try reflexivity;
      assert (Hk : isLive (readyState k h) = true)
        by (rewrite Hs; reflexivity);
      apply (ref_live h W) in Hk; congruence.
Qed.

(** X9.  The cleanup does not take the handlers off the socket it closes:
    when the page is unmounted with an open socket, the close event that
    follows schedules a reconnect timer of 2000 ms, and that timer, when
    it fires, constructs a new socket and stores it in [wsRef.current]. *)
Theorem close_after_cleanup_reconnects h k :
  reachable h -> readyState k h = OPEN ->
  exists h1 h2,
    step (SocketClose k) (cleanup h) = Some h1
    /\ timers h1 = [(nextTimer h, 2000)]
    /\ step (TimerFired (nextTimer h) false) h1 = Some h2
    /\ wsRef h2 = Some (List.length (sockets h))
    /\ readyState (List.length (sockets h)) h2 = CONNECTING.
Proof.
  intros Hr Hk.
  pose proof (reachable_Wired h Hr) as W.
  pose proof (reachable_Inv h Hr) as [A B C].
  pose proof (open_fresh h W k Hk) as H0.
  assert (Hlive : isLive (nth k (sockets h) CLOSED) = true)
    by (unfold readyState in Hk; rewrite Hk; reflexivity).
  assert (Hw : wsRef h = Some k)
    by (apply (ref_live h W); unfold readyState; exact Hlive).
  pose proof (live_in_range _ _ Hlive) as Hrange.
  pose proof (live_nth _ _ Hlive) as Hge.
  assert (Ht : timers h = [])
    by (destruct (timers h); [reflexivity | simpl in B; lia]).
  assert (Hc : cleanup h
               = set_wsRef None
                   (set_sockets (setReady k CLOSING (sockets h))
                      (set_timers [] h))).
  { unfold cleanup; rewrite Ht.
    assert (E : clearTimeout (reconnectTimeout h) [] = [])
      by (destruct (reconnectTimeout h); reflexivity).
    rewrite E; cbn [wsRef set_timers]; rewrite Hw.
    unfold close.
    change (readyState k (set_timers [] h)) with (readyState k h).
    rewrite Hk; reflexivity. }
  assert (Hclosing : readyState k (cleanup h) = CLOSING).
  { rewrite Hc; unfold readyState; cbn.
    apply nth_setReady_same, Hrange. }
  assert (Hlen : List.length
                   (setReady k CLOSED (setReady k CLOSING (sockets h)))
                 = List.length (sockets h))
    by (rewrite !length_setReady; reflexivity).
  assert (Hdead : live (setReady k CLOSED (setReady k CLOSING (sockets h)))
                  = 0%nat).
  { rewrite live_setReady.
    - rewrite live_setReady by exact Hlive; simpl; lia.
    - rewrite nth_setReady_same by exact Hrange; reflexivity. }
  set (x := set_wsRef None
              (set_isConnecting false
                 (set_sockets
                    (setReady k CLOSED (setReady k CLOSING (sockets h)))
                    (cleanup h)))).
  assert (Hx : timers x = [] /\ nextTimer x = nextTimer h
               /\ reconnectAttempts x = 0 /\ isConnecting x = false
               /\ wsRef x = None
               /\ sockets x
                  = setReady k CLOSED (setReady k CLOSING (sockets h)))
    by (unfold x; rewrite Hc; repeat split; exact H0).
  destruct Hx as (Xt & Xn & Xa & Xi & Xw & Xs).
  assert (E1 : step (SocketClose k) (cleanup h) = Some (planReconnect x)).
  { simpl; rewrite Hclosing; unfold onclose.
    replace (sockets (cleanup h)) with (setReady k CLOSING (sockets h))
      by (rewrite Hc; reflexivity).
    fold x; rewrite Xa; reflexivity. }
  destruct (planReconnect_spec x) as (Pa & Pt & Pn & _ & Ps & Pw & Pi).
  rewrite Xt, Xn, Xa in Pt; cbn [app] in Pt.
  change (reconnectDelay (0 + 1)) with 2000 in Pt.
  set (y := set_timers [] (planReconnect x)).
  assert (E2 : step (TimerFired (nextTimer h) false) (planReconnect x)
               = Some (connectWebSocket false y)).
  { unfold step; rewrite Pt; cbn [takeTimer]; rewrite Nat.eqb_refl.
    reflexivity. }
  assert (E3 : connectWebSocket false y
               = set_wsRef (Some (List.length (sockets y)))
                   (set_sockets (sockets y ++ [CONNECTING])
                      (set_isConnecting true y))).
  { unfold connectWebSocket.
    change (isConnecting y) with (isConnecting (planReconnect x)).
    change (reconnectAttempts y) with (reconnectAttempts (planReconnect x)).
    change (wsRef (set_isConnecting true y)) with (wsRef (planReconnect x)).
    rewrite Pi, Xi, Pa, Xa, Pw, Xw; reflexivity. }
  assert (Ys : sockets y
               = setReady k CLOSED (setReady k CLOSING (sockets h)))
    by (unfold y; cbn [sockets set_timers]; rewrite Ps; exact Xs).
  exists (planReconnect x), (connectWebSocket false y).
  split; [exact E1|]; split; [exact Pt|]; split; [exact E2|].
  rewrite E3; unfold readyState.
  cbn [wsRef sockets set_wsRef set_sockets set_isConnecting].
  rewrite Ys, Hlen; split; [reflexivity|].
  rewrite nth_new by exact Hdead.
  rewrite Hlen, Nat.eqb_refl; reflexivity.
Qed.

(** *** The retry budget *)

Lemma connectWebSocket_counts throws h :
  Z.of_nat (nextTimer (connectWebSocket throws h))
  - reconnectAttempts (connectWebSocket throws h)
  = Z.of_nat (nextTimer h) - reconnectAttempts h.
Proof.
  unfold connectWebSocket.
  destruct (isConnecting h || (maxReconnectAttempts <=? reconnectAttempts h));
    [reflexivity|].
  set (h1 := match wsRef (set_isConnecting true h) with
             | Some k => set_wsRef None (close k (set_isConnecting true h))
             | None => set_isConnecting true h
             end).
  assert (E : nextTimer h1 = nextTimer h
              /\ reconnectAttempts h1 = reconnectAttempts h).
  { unfold h1; destruct (wsRef (set_isConnecting true h)) as [k|];
      [unfold close; destruct (readyState k (set_isConnecting true h))|];
      split; reflexivity. }
  destruct E as [En Ea].
  destruct throws; [|cbn; lia].
  cbn [reconnectAttempts set_isConnecting].
  destruct (reconnectAttempts h1 <? maxReconnectAttempts); [|cbn; lia].
  destruct (planReconnect_spec (set_isConnecting false h1))
    as (Pa & _ & Pn & _).
  rewrite Pa, Pn; cbn [reconnectAttempts nextTimer set_isConnecting]; lia.
Qed.

Lemma step_counts i h h' :
  isOpen i = false -> step i h = Some h' ->
  Z.of_nat (nextTimer h') - reconnectAttempts h'
  = Z.of_nat (nextTimer h) - reconnectAttempts h.
Proof.
  intros Ho.
  destruct (besideConnection i) eqn:Hi.
  { intros Hs; apply (step_leaves_connection i) in Hs; [|exact Hi].
    unfold connection in Hs; injection Hs as _ _ _ -> _ _ ->; reflexivity. }
  destruct i; try discriminate Hi; try discriminate Ho; simpl.
  - destruct (takeTimer handle (timers h)) as [rest|]; [|discriminate].
    intros E; injection E as <-.
    rewrite connectWebSocket_counts; reflexivity.
  - destruct (readyState ws h); try discriminate;
      intros E; injection E as <-; reflexivity.
  - assert (Hc : forall x,
               nextTimer x = nextTimer h ->
               reconnectAttempts x = reconnectAttempts h ->
               Z.of_nat (nextTimer (onclose x)) - reconnectAttempts (onclose x)
               = Z.of_nat (nextTimer h) - reconnectAttempts h).
    { intros x Xn Xa; unfold onclose.
      cbn [reconnectAttempts set_wsRef set_isConnecting].
      destruct (reconnectAttempts x <? maxReconnectAttempts);
        [|cbn; lia].
      destruct (planReconnect_spec (set_wsRef None (set_isConnecting false x)))
        as (Pa & _ & Pn & _).
      rewrite Pa, Pn.
      cbn [nextTimer reconnectAttempts set_wsRef set_isConnecting]; lia. }
    destruct (readyState ws h); try discriminate;
      intros E; injection E as <-; apply Hc; reflexivity.
Qed.

Lemma run_counts inputs h h' :
  noOpen inputs = true -> run inputs h = Some h' ->
  Z.of_nat (nextTimer h') - reconnectAttempts h'
  = Z.of_nat (nextTimer h) - reconnectAttempts h.
Proof.
  revert h; induction inputs as [|i inputs IH]; intros h Hno; simpl.
  - intros E; injection E as <-; reflexivity.
  - simpl in Hno; apply andb_true_iff in Hno; destruct Hno as [Hi Hno].
    apply negb_true_iff in Hi.
    destruct (step i h) as [h1|] eqn:Hs; [|discriminate].
    intros Hrun; rewrite (IH h1 Hno Hrun); apply (step_counts i); assumption.
Qed.

(** X10.  As long as no socket opens, the reconnect timers scheduled are
    as many as the attempt counter went up, so from any state the page
    reaches at most [5 - reconnectAttempts] more are scheduled before the
    next successful open: five at most after a connection was up. *)
Theorem retry_budget h inputs h' :
  reachable h -> run inputs h = Some h' -> noOpen inputs = true ->
  Z.of_nat (nextTimer h') - Z.of_nat (nextTimer h)
  = reconnectAttempts h' - reconnectAttempts h
  /\ Z.of_nat (nextTimer h') - Z.of_nat (nextTimer h)
     <= maxReconnectAttempts - reconnectAttempts h.
Proof.
  intros Hr Hrun Hno.
  pose proof (run_counts inputs h h' Hno Hrun) as Hc.
  pose proof (reachable_Inv h' (run_reachable inputs h h' Hr Hrun))
    as [A _ _].
  lia.
Qed.

(** *** Pings *)

Lemma connectWebSocket_sent throws h :
  sent (connectWebSocket throws h) = sent h.
Proof.
  unfold connectWebSocket.
  destruct (isConnecting h || (maxReconnectAttempts <=? reconnectAttempts h));
    [reflexivity|].
  destruct (wsRef (set_isConnecting true h)) as [k|];
    [unfold close; destruct (readyState k (set_isConnecting true h))|];
    destruct throws; cbn;
    try (destruct (reconnectAttempts h <? maxReconnectAttempts));
    reflexivity.
Qed.

(** X11.  The page sends a ping on a socket when it opens, and on each
    heartbeat tick on the socket [wsRef.current] holds if that socket is
    open; a tick without an open current socket changes nothing, and no
    other event sends anything.  Every ping goes to a socket that is open
    at that moment. *)
Theorem pings_only_on_open_sockets i h h' :
  step i h = Some h' ->
  (forall ws, i = SocketOpen ws ->
     sent h' = sent h ++ [ws] /\ readyState ws h' = OPEN)
  /\ (i = HeartbeatTick ->
      (exists k, wsRef h = Some k /\ readyState k h = OPEN
                 /\ sent h' = sent h ++ [k] /\ readyState k h' = OPEN)
      \/ ((forall k, wsRef h = Some k -> readyState k h <> OPEN)
          /\ h' = h))
  /\ (pings i = false -> sent h' = sent h).
Proof.
  intros Hs; split; [|split].
  - intros ws ->; simpl in Hs.
    destruct (readyState ws h) eqn:Hr; try discriminate.
    injection Hs as <-.
    assert (Hk : isLive (nth ws (sockets h) CLOSED) = true)
      by (unfold readyState in Hr; rewrite Hr; reflexivity).
    assert (Hopen : nth ws (setReady ws OPEN (sockets h)) CLOSED = OPEN)
      by (apply nth_setReady_same, live_in_range, Hk).
    assert (Hready :
              readyState ws
                (set_reconnectAttempts 0
                   (set_isConnecting false
                      (set_sockets (setReady ws OPEN (sockets h)) h)))
              = OPEN) by exact Hopen.
    unfold onopen; rewrite Hready; split; [reflexivity | exact Hopen].
  - intros ->; simpl in Hs; injection Hs as <-; unfold heartbeat.
    destruct (wsRef h) as [k|] eqn:Hw.
    + destruct (readyState k h) eqn:Hr;
        try (right; split; [|reflexivity];
             intros k' Hk'; injection Hk' as <-; rewrite Hr; discriminate).
      left; exists k; repeat split; assumption.
    + right; split; [intros k Hk; discriminate | reflexivity].
  - intros Hp.
    destruct (besideConnection i) eqn:Hi.
    + destruct i; try discriminate Hi; try discriminate Hp; simpl in Hs;
        revert Hs; unfold onmessage, handleCommand; unchanged.
    + destruct i; try discriminate Hi; try discriminate Hp; simpl in Hs.
      * destruct (takeTimer handle (timers h)); [|discriminate].
        injection Hs as <-; rewrite connectWebSocket_sent; reflexivity.
      * destruct (readyState ws h); try discriminate;
          injection Hs as <-; reflexivity.
      * revert Hs; unfold onclose.
        cbn [reconnectAttempts set_wsRef set_isConnecting set_sockets].
        destruct (readyState ws h); try discriminate;
          destruct (reconnectAttempts h <? maxReconnectAttempts);
          intros E; injection E as <-; reflexivity.
Qed.

(** *** The loading flag *)

Lemma existsb_removeAt {A} (f : A -> bool) l i x :
  nth_error l i = Some x -> f x = false ->
  existsb f (removeAt i l) = existsb f l.
Proof.
  revert i; induction l as [|y l IH]; intros [|i]; simpl;
    try discriminate.
  - intros E; injection E as ->; intros ->; reflexivity.
  - intros Hi Hx; rewrite (IH i Hi Hx); reflexivity.
Qed.

Lemma existsb_last {A} (f : A -> bool) l x :
  f x = true -> existsb f (l ++ [x]) = true.
Proof.
  intros Hx; rewrite existsb_app; simpl; rewrite Hx.
  rewrite orb_true_r; reflexivity.
Qed.

Lemma connectWebSocket_beside throws h :
  beside (connectWebSocket throws h) = beside h.
Proof.
  unfold connectWebSocket.
  destruct (isConnecting h || (maxReconnectAttempts <=? reconnectAttempts h));
    [reflexivity|].
  destruct (wsRef (set_isConnecting true h)) as [k|];
    [unfold close; destruct (readyState k (set_isConnecting true h))|];
    destruct throws; cbn;
    try (destruct (reconnectAttempts h <? maxReconnectAttempts));
    reflexivity.
Qed.

Lemma onopen_beside ws h : beside (onopen ws h) = beside h.
Proof.
  unfold onopen.
  destruct (readyState ws (set_reconnectAttempts 0 (set_isConnecting false h)));
    reflexivity.
Qed.

Lemma onclose_beside h : beside (onclose h) = beside h.
Proof.
  unfold onclose.
  cbn [reconnectAttempts set_wsRef set_isConnecting].
  destruct (reconnectAttempts h <? maxReconnectAttempts); reflexivity.
Qed.

Lemma connection_step_leaves_beside i h h' :
  besideConnection i = false -> step i h = Some h' -> beside h' = beside h.
Proof.
  destruct i; try discriminate; intros _; simpl.
  - destruct (takeTimer handle (timers h)); [|discriminate].
    intros E; injection E as <-.
    rewrite connectWebSocket_beside; reflexivity.
  - destruct (readyState ws h); try discriminate;
      intros E; injection E as <-; rewrite onopen_beside; reflexivity.
  - destruct (readyState ws h); try discriminate;
      intros E; injection E as <-; reflexivity.
  - destruct (readyState ws h); try discriminate;
      intros E; injection E as <-; rewrite onclose_beside; reflexivity.
Qed.

Lemma mount_Busy now throws : Busy (mount now throws).
Proof.
  intros _; unfold mount, selectionEffect; apply existsb_last; reflexivity.
Qed.

Lemma step_Busy i h h' : Busy h -> step i h = Some h' -> Busy h'.
Proof.
  intros HB.
  destruct (besideConnection i) eqn:Hi.
  2:{ intros Hs; apply (connection_step_leaves_beside i) in Hs; [|exact Hi].
      unfold beside in Hs; injection Hs as _ _ Hl _ _ _ _ _ _ _ Hf.
      unfold Busy; rewrite Hl, Hf; exact HB. }
  unfold Busy in *.
  destruct i; try discriminate Hi; simpl.
  - (* SocketMessage *)
    destruct (readyState ws h); try discriminate;
      intros E; injection E as <-; unfold onmessage;
      (destruct frame as [data|]; [|exact HB]);
      (destruct (Js.get data "type") as [type|]; [|exact HB]);
      (destruct (Js.is_str type "connection_established"); [exact HB|]);
      (destruct (Js.is_str type "sync_complete");
       [intros _; apply existsb_last; reflexivity|]);
      destruct (Js.is_str type "pong"); exact HB.
  - (* HeartbeatTick *)
    intros E; injection E as <-; unfold heartbeat.
    destruct (wsRef h) as [k|]; [|exact HB].
    destruct (readyState k h); exact HB.
  - (* ClickSync *)
    destruct (syncing h); [discriminate|].
    intros E; injection E as <-; cbn; intros Hl.
    rewrite existsb_app, (HB Hl); reflexivity.
  - (* SelectDate *)
    intros E; injection E as <-; intros _; apply existsb_last; reflexivity.
  - (* ClickRange *)
    intros E; injection E as <-.
    destruct (negb (DateRange_eqb range (selectedDateRange h)));
      [intros _; apply existsb_last; reflexivity | exact HB].
  - (* DeferredFetch *)
    destruct (nth_error (deferred h) i) as [[date range]|]; [|discriminate].
    intros E; injection E as <-; intros _; apply existsb_last; reflexivity.
  - (* ClickDelete *)
    intros E; injection E as <-; intros _; apply existsb_last; reflexivity.
  - (* TypeCommand *)
    destruct (loading h) eqn:Hl; [discriminate|].
    intros E; injection E as <-; cbn; rewrite Hl; discriminate.
  - (* SendCommand *)
    destruct (loading h) eqn:Hl; [discriminate|].
    intros E; injection E as <-; unfold handleCommand.
    destruct (blank (command h));
      [rewrite Hl; discriminate
      | intros _; apply existsb_last; reflexivity].
  - (* OpenForm *)
    intros E; injection E as <-; exact HB.
  - (* CloseForm *)
    destruct (eventFormOpen h); [|discriminate].
    intros E; injection E as <-; exact HB.
  - (* SubmitForm *)
    destruct (eventFormOpen h); [|discriminate].
    intros E; injection E as <-; intros _; apply existsb_last; reflexivity.
  - (* Settle *)
    destruct (nth_error (inflight h) i) as [p|] eqn:Hp; [|discriminate].
    destruct p;
      destruct r as [data | data | [|] err | data | [|] err | err];
      try discriminate; intros E; injection E as <-; try discriminate;
      cbn; try (destruct data; discriminate);
      intros Hl; rewrite (existsb_removeAt _ _ _ _ Hp eq_refl);
      apply HB, Hl.
Qed.

Lemma reachable_Busy h : reachable h -> Busy h.
Proof.
  induction 1 as [now throws | h i h' Hr IH Hs].
  - apply mount_Busy.
  - eapply step_Busy; eassumption.
Qed.

Lemma settle_lowers_loading h i p r h' :
  nth_error (inflight h) i = Some p -> lowersLoading p = true ->
  step (Settle i r) h = Some h' -> loading h' = false.
Proof.
  intros Hp Hl; simpl; rewrite Hp.
  destruct p; try discriminate Hl;
    destruct r as [data | data | [|] err | data | [|] err | err];
    try discriminate; intros E; injection E as <-; reflexivity.
Qed.

(** X12.  The loading flag cannot stay up for ever: in every state the
    page reaches in which it is up, a request of [fetchEvents],
    [handleCommand], [handleDeleteEvent] or [handleCreateEvent] is in
    flight, and the response to it, whatever it is, lowers the flag. *)
Theorem loading_has_a_request_in_flight h :
  reachable h -> loading h = true ->
  exists i p,
    nth_error (inflight h) i = Some p
    /\ p <> AwaitSync
    /\ forall r h', step (Settle i r) h = Some h' -> loading h' = false.
Proof.
  intros Hr Hl.
  pose proof (reachable_Busy h Hr Hl) as Hb.
  apply existsb_exists in Hb; destruct Hb as (p & Hin & Hp).
  apply In_nth_error in Hin; destruct Hin as (i & Hi).
  exists i, p; split; [exact Hi|]; split.
  - intros ->; discriminate.
  - intros r h'; apply (settle_lowers_loading h i p r h' Hi Hp).
Qed.

(** *** The error message and the syncing flag *)

(** What an event whose handler has no [setError(null)] does to the
    error: it leaves it alone, or it is the rejection of a request with an
    [Error], whose message becomes the error, or it sets a text that is
    not empty. *)
Lemma step_error i h h' :
  step i h = Some h' -> clearsError i = false ->
  (error h' = error h
   /\ forall k message, i <> Settle k (Rejected (IsError message)))
  \/ (exists k message,
        i = Settle k (Rejected (IsError message)) /\ error h' = Some message)
  \/ (exists text,
        error h' = Some text /\ text <> ""
        /\ forall k message, i <> Settle k (Rejected (IsError message))).
Proof.
  intros Hs Hc.
  destruct (besideConnection i) eqn:Hi.
  2:{ apply (connection_step_leaves_beside i) in Hs; [|exact Hi].
      unfold beside in Hs; injection Hs as _ _ _ _ Herr _ _ _ _ _ _.
      left; split; [exact Herr|].
      intros k message ->; discriminate. }
  destruct i; try discriminate Hi; try discriminate Hc; simpl in Hs.
  - (* SocketMessage *)
    assert (Hm : error (onmessage frame h) = error h)
      by (unfold onmessage; branches; reflexivity).
    destruct (readyState ws h); try discriminate; injection Hs as <-;
      left; (split; [exact Hm | intros k message E; discriminate]).
  - (* HeartbeatTick *)
    injection Hs as <-.
    assert (Hb : error (heartbeat h) = error h)
      by (unfold heartbeat; branches; reflexivity).
    left; split; [exact Hb | intros k message E; discriminate].
  - injection Hs as <-; left.
    split; [reflexivity | intros k message E; discriminate].
  - injection Hs as <-; left.
    destruct (negb (DateRange_eqb range (selectedDateRange h)));
      (split; [reflexivity | intros k message E; discriminate]).
  - destruct (nth_error (deferred h) i) as [[date range]|]; [|discriminate].
    injection Hs as <-; left.
    split; [reflexivity | intros k message E; discriminate].
  - injection Hs as <-; left.
    split; [reflexivity | intros k message E; discriminate].
  - destruct (loading h); [discriminate|].
    injection Hs as <-; left.
    split; [reflexivity | intros k message E; discriminate].
  - injection Hs as <-; left.
    split; [reflexivity | intros k message E; discriminate].
  - destruct (eventFormOpen h); [|discriminate].
    injection Hs as <-; left.
    split; [reflexivity | intros k message E; discriminate].
  - destruct (eventFormOpen h); [|discriminate].
    injection Hs as <-; left.
    split; [reflexivity | intros k message E; discriminate].
  - (* Settle *)
    destruct (nth_error (inflight h) i) as [p|]; [|discriminate].
    destruct p;
      destruct r as [data | data | [|] err | data | [|] err | err];
      try discriminate Hs; try discriminate Hc; injection Hs as <-;
      first
        [ left; split; [reflexivity | intros k message E; discriminate]
        | destruct err as [message|];
          [ right; left; exists i, message; split; reflexivity
          | right; right; eexists; split; [reflexivity|];
            split; [discriminate | intros k message E; discriminate] ]
        | destruct err as [e|]; cbn;
          [destruct (e =? "")%string eqn:E|];
          right; right; eexists; (split; [reflexivity|]);
          (split;
           [ first [discriminate | apply String.eqb_neq; exact E]
           | intros k message E'; discriminate ]) ].
Qed.

(** X13.  An error message on display stays on display (as it is, or
    replaced by another) through every event whose handler has no
    [setError(null)], with one exception: the rejection of a request with
    an [Error] whose message is empty, which puts the empty string in its
    place, and the page shows the empty string as no message.  In
    particular a successful fetch replaces the events and leaves the
    message where it is. *)
Theorem error_stays_until_cleared i h h' :
  step i h = Some h' -> clearsError i = false -> errorShown h = true ->
  (errorShown h' = false <-> exists k, i = Settle k (Rejected (IsError "")))
  /\ (forall k data, i = Settle k (Events data) ->
        error h' = error h /\ events h' = data).
Proof.
  intros Hs Hc He; split.
  - unfold errorShown in *.
    destruct (step_error i h h' Hs Hc)
      as [(E & Hn) | [(k & message & -> & E) | (text & E & Ht & Hn)]];
      rewrite E.
    + rewrite He; split; [discriminate|].
      intros (k & Hk); exfalso; apply (Hn k ""), Hk.
    + rewrite negb_false_iff, String.eqb_eq; split.
      * intros ->; exists k; reflexivity.
      * intros (k' & Hk); injection Hk as _ ->; reflexivity.
    + apply String.eqb_neq in Ht; rewrite Ht; split; [discriminate|].
      intros (k & Hk); exfalso; apply (Hn k ""), Hk.
  - intros k data ->; simpl in Hs.
    destruct (nth_error (inflight h) k) as [p|]; [|discriminate].
    destruct p; try discriminate Hs; injection Hs as <-.
    split; reflexivity.
Qed.

(** X14.  Once the syncing flag is up, only two events lower it: a frame
    that declares the type [sync_complete], and the rejection of the sync
    call itself.  Every other event, the successful response of the sync
    call among them, leaves it up. *)
Theorem syncing_lowered_only_by i h h' :
  step i h = Some h' -> syncing h = true -> syncing h' = false ->
  (exists ws frame,
     i = SocketMessage ws frame /\ declares frame "sync_complete")
  \/ (exists k err,
        i = Settle k (Rejected err)
        /\ nth_error (inflight h) k = Some AwaitSync).
Proof.
  intros Hs Hup Hdown.
  destruct (besideConnection i) eqn:Hi.
  2:{ apply (connection_step_leaves_beside i) in Hs; [|exact Hi].
      unfold beside in Hs; injection Hs as _ _ _ Hsync _ _ _ _ _ _ _.
      congruence. }
  destruct i; try discriminate Hi; simpl in Hs.
  - (* SocketMessage *)
    left; exists ws, frame; split; [reflexivity|].
    assert (Hm : onmessage frame h = h'
                 \/ declares frame "sync_complete").
    { destruct (readyState ws h); try discriminate; injection Hs as <-;
        left; reflexivity. }
    clear Hs; unfold onmessage in Hm.
    destruct Hm as [Hm | Hm]; [|exact Hm].
    destruct frame as [data|]; [|congruence].
    destruct (Js.get data "type") as [type|] eqn:Ht; [|congruence].
    destruct (Js.is_str type "connection_established"); [congruence|].
    destruct (Js.is_str type "sync_complete") eqn:E.
    + exists data; split; [reflexivity|].
      apply is_str_true in E; rewrite Ht, E; reflexivity.
    + destruct (Js.is_str type "pong"); congruence.
  - injection Hs as <-; exfalso.
    assert (Hb : syncing (heartbeat h) = syncing h)
      by (unfold heartbeat; branches; reflexivity).
    congruence.
  - rewrite Hup in Hs; discriminate.
  - injection Hs as <-; cbn in Hdown; congruence.
  - injection Hs as <-.
    destruct (negb (DateRange_eqb range (selectedDateRange h)));
      cbn in Hdown; congruence.
  - destruct (nth_error (deferred h) i) as [[date range]|]; [|discriminate].
    injection Hs as <-; cbn in Hdown; congruence.
  - injection Hs as <-; cbn in Hdown; congruence.
  - destruct (loading h); [discriminate|].
    injection Hs as <-; cbn in Hdown; congruence.
  - destruct (loading h); [discriminate|].
    injection Hs as <-; unfold handleCommand in Hdown.
    destruct (blank (command h)); cbn in Hdown; congruence.
  - injection Hs as <-; cbn in Hdown; congruence.
  - destruct (eventFormOpen h); [|discriminate].
    injection Hs as <-; cbn in Hdown; congruence.
  - destruct (eventFormOpen h); [|discriminate].
    injection Hs as <-; cbn in Hdown; congruence.
  - (* Settle *)
    destruct (nth_error (inflight h) i) as [p|] eqn:Hp; [|discriminate].
    destruct p;
      destruct r as [data | data | [|] err | data | [|] err | err];
      try discriminate Hs; injection Hs as <-;
      try (cbn in Hdown; try destruct data; cbn in Hdown; congruence).
    right; exists i, err; split; [reflexivity | exact Hp].
Qed.

(** *** Which fetch is issued *)

(** X15.  A [sync_complete] frame lowers the syncing flag and issues one
    fetch, and that fetch is always [getWeekEvents]: the [fetchEvents] of
    the socket handler is the one of the first render, so the range and
    the date selected since do not count, and the answer is displayed
    under the selection as it stands. *)
Theorem sync_complete_fetches_the_week data ws h h' :
  Js.get data "type" = Some (Js.Str "sync_complete") ->
  step (SocketMessage ws (Some data)) h = Some h' ->
  syncing h' = false
  /\ inflight h' = inflight h ++ [AwaitFetch getWeekEvents]
  /\ selectedDateRange h' = selectedDateRange h
  /\ selectedDate h' = selectedDate h
  /\ forall answer, exists h2,
       step (Settle (List.length (inflight h)) (Events answer)) h' = Some h2
       /\ events h2 = answer
       /\ selectedDateRange h2 = selectedDateRange h.
Proof.
  intros Ht Hs; cbn [step] in Hs.
  assert (E : h' = onmessage (Some data) h)
    by (destruct (readyState ws h); congruence).
  rewrite (onmessage_sync_complete _ _ Ht) in E; subst h'.
  repeat split.
  intros answer; eexists; split.
  - cbn [step inflight fetchEvents await set_inflight setLoading setSyncing
           setSyncStatus].
    rewrite nth_error_last; reflexivity.
  - split; reflexivity.
Qed.

(** X16.  A click on a range button selects the range and defers one
    call of [fetchEvents]; when the range changed, the effect issues the
    fetch for the new range at once.  The deferred call, when it runs, is
    the [fetchEvents] of the render the click happened in: it asks for the
    range that was selected before the click, and is issued last. *)
Theorem range_click_fetches_old_range_last h range :
  exists h1 h2,
    step (ClickRange range) h = Some h1
    /\ selectedDateRange h1 = range
    /\ inflight h1
       = inflight h
         ++ (if DateRange_eqb range (selectedDateRange h) then []
             else [AwaitFetch (request (selectedDate h) range)])
    /\ step (DeferredFetch (List.length (deferred h))) h1 = Some h2
    /\ inflight h2
       = inflight h1
         ++ [AwaitFetch (request (selectedDate h) (selectedDateRange h))]
    /\ deferred h2 = deferred h
    /\ selectedDateRange h2 = range.
Proof.
  cbn [step].
  destruct (DateRange_eqb range (selectedDateRange h)) eqn:E;
    cbn [negb]; eexists; eexists; (split; [reflexivity|]);
    (split; [reflexivity|]);
    (split; [cbn; rewrite ?app_nil_r; reflexivity|]);
    (split;
      [cbn [deferred handleDateRangeChange selectionEffect fetchEvents
              await set_inflight setLoading set_deferred
              setSelectedDateRange];
       rewrite nth_error_last; reflexivity|]);
    cbn; rewrite removeAt_last; repeat split.
Qed.

(** *** Commands and the event form *)

(** X17.  A command that is empty or all white space (what [trim]
    strips, the no-break space and the other Unicode spaces included)
    sends nothing and changes nothing.  Any other command raises the
    loading flag, which disables the text field, and clears the error; the
    response then lowers the flag, and either replaces the events (when it
    carries events) and empties the command line, or, when the call
    failed, leaves events and command line as they are and sets the error
    to the message of the [Error], or to a fixed text when the thrown
    value is no [Error]. *)
Theorem command_round_trip h :
  loading h = false ->
  (blank (command h) = true -> step SendCommand h = Some h)
  /\ (blank (command h) = false ->
      exists h1,
        step SendCommand h = Some h1
        /\ loading h1 = true /\ error h1 = None
        /\ (forall text, step (TypeCommand text) h1 = None)
        /\ (forall data, exists h2,
              step (Settle (List.length (inflight h)) (CommandData data)) h1
              = Some h2
              /\ events h2 = match data with
                             | Some events => events
                             | None => events h
                             end
              /\ command h2 = "" /\ error h2 = None
              /\ loading h2 = false)
        /\ (forall err, exists h2,
              step (Settle (List.length (inflight h)) (Rejected err)) h1
              = Some h2
              /\ events h2 = events h /\ command h2 = command h
              /\ error h2 = Some (match err with
                                  | IsError message => message
                                  | NotError => "Command failed"
                                  end)
              /\ loading h2 = false)).
Proof.
  intros Hl; split; intros Hb; simpl; rewrite Hl; unfold handleCommand;
    rewrite Hb; [reflexivity|].
  eexists; split; [reflexivity|].
  split; [reflexivity|]; split; [reflexivity|]; split; [reflexivity|].
  split.
  - intros data; eexists; split.
    + cbn [step inflight await set_inflight setError setLoading].
      rewrite nth_error_last; reflexivity.
    + destruct data; repeat split.
  - intros err; eexists; split.
    + cbn [step inflight await set_inflight setError setLoading].
      rewrite nth_error_last; reflexivity.
    + destruct err; repeat split.
Qed.

(** X18.  Submitting the event form raises the loading flag.  When the
    API reports success, the form is closed, the error is cleared and one
    fetch is issued, for the selection the form was submitted under; the
    loading flag is lowered at once, while that fetch is still in flight.
    When the API reports failure, the form stays open, nothing is fetched
    and the reported error (or a default text) is shown.  The events are
    not touched either way. *)
Theorem create_event_round_trip h error :
  eventFormOpen h = true ->
  exists h1,
    step SubmitForm h = Some h1
    /\ loading h1 = true
    /\ (exists h2,
          step (Settle (List.length (inflight h)) (CreateResponse true error))
            h1 = Some h2
          /\ eventFormOpen h2 = false /\ Page.error h2 = None
          /\ loading h2 = false
          /\ inflight h2
             = inflight h
               ++ [AwaitFetch
                     (request (selectedDate h) (selectedDateRange h))]
          /\ events h2 = events h)
    /\ (exists h2,
          step (Settle (List.length (inflight h)) (CreateResponse false error))
            h1 = Some h2
          /\ eventFormOpen h2 = true
          /\ Page.error h2
             = Some (match error with
                     | Some e =>
                         if (e =? "")%string then "Failed to create event"
                         else e
                     | None => "Failed to create event"
                     end)
          /\ loading h2 = false
          /\ inflight h2 = inflight h
          /\ events h2 = events h).
Proof.
  intros Ho; simpl; rewrite Ho.
  eexists; split; [reflexivity|]; split; [reflexivity|].
  split; eexists; (split;
    [ cbn [step inflight handleCreateEvent await set_inflight setLoading];
      rewrite nth_error_last; reflexivity
    | cbn; rewrite removeAt_last, ?Ho; repeat split ]).
Qed.

End WithHost.

(** *** The properties on the sample states *)

Import Scenario MoreScenarios.
#[local] Existing Instance Utc.host.

Lemma waiting_reachable : reachable waiting.
Proof.
  apply (run_reachable [SocketClose 0%nat] loaded);
    [apply loaded_reachable | vm_compute; reflexivity].
Qed.

Lemma commanding_reachable : reachable commanding.
Proof.
  apply (run_reachable
           [TypeCommand "show my events for today"; SendCommand] loaded);
    [apply loaded_reachable | vm_compute; reflexivity].
Qed.

Lemma one_socket_named_by_wsRef_witness :
  reachable loaded
  /\ (forall k,
        wsRef loaded = Some k <-> isLive (readyState k loaded) = true)
  /\ wsRef loaded = Some 0%nat.
Proof.
  split; [exact loaded_reachable|].
  split; [|reflexivity].
  exact (proj1 (one_socket_named_by_wsRef loaded loaded_reachable)).
Defined.

Lemma pending_timer_is_named_and_bounded_witness :
  (reachable waiting /\ In (0%nat, 2000) (timers waiting))
  /\ timers waiting = [(0%nat, 2000)]
  /\ reconnectTimeout waiting = Some 0%nat
  /\ 2000 = reconnectDelay (reconnectAttempts waiting)
  /\ 2000 <= 2000 <= 10000.
Proof.
  assert (Hin : In (0%nat, 2000) (timers waiting)) by (left; reflexivity).
  split; [split; [exact waiting_reachable | exact Hin]|].
  exact (pending_timer_is_named_and_bounded waiting 0%nat 2000
           waiting_reachable Hin).
Defined.

Lemma timer_starts_attempt_witness :
  (reachable waiting /\ reconnectAttempts waiting < maxReconnectAttempts)
  /\ exists h',
       step (TimerFired 0%nat false) waiting = Some h'
       /\ isConnecting waiting = false
       /\ sockets h' = [CLOSED; CONNECTING]
       /\ wsRef h' = Some 1%nat.
Proof.
  assert (Hlt : reconnectAttempts waiting < maxReconnectAttempts)
    by reflexivity.
  split; [split; [exact waiting_reachable | exact Hlt]|].
  eexists; split; [vm_compute; reflexivity|].
  destruct (timer_starts_attempt waiting 0%nat false _ waiting_reachable Hlt
              eq_refl) as (Hc & Hf & _).
  split; [exact Hc|].
  destruct (Hf eq_refl) as (Hs & Hw & _).
  split; [exact Hs | exact Hw].
Defined.

Lemma open_connection_lost_witness :
  (reachable loaded /\ readyState 0%nat loaded = OPEN)
  /\ reconnectAttempts loaded = 0
  /\ exists h',
       step (SocketClose 0%nat) loaded = Some h'
       /\ reconnectAttempts h' = 1
       /\ wsRef h' = None
       /\ timers h' = [(0%nat, 2000)].
Proof.
  split; [split; [exact loaded_reachable | reflexivity]|].
  exact (open_connection_lost loaded 0%nat loaded_reachable eq_refl).
Defined.

Lemma cleanup_cancels_and_closes_witness :
  (reachable waiting /\ timers waiting = [(0%nat, 2000)])
  /\ timers (cleanup waiting) = []
  /\ wsRef (cleanup waiting) = None
  /\ (forall k, readyState k (cleanup waiting) = CLOSING
                \/ readyState k (cleanup waiting) = CLOSED)
  /\ reconnectAttempts (cleanup waiting) = reconnectAttempts waiting
  /\ beside (cleanup waiting) = beside waiting.
Proof.
  split; [split; [exact waiting_reachable | reflexivity]|].
  exact (cleanup_cancels_and_closes waiting waiting_reachable).
Defined.

Lemma close_after_cleanup_reconnects_witness :
  (reachable loaded /\ readyState 0%nat loaded = OPEN)
  /\ exists h1 h2,
       step (SocketClose 0%nat) (cleanup loaded) = Some h1
       /\ timers h1 = [(0%nat, 2000)]
       /\ step (TimerFired 0%nat false) h1 = Some h2
       /\ wsRef h2 = Some 1%nat
       /\ readyState 1%nat h2 = CONNECTING.
Proof.
  split; [split; [exact loaded_reachable | reflexivity]|].
  exact (close_after_cleanup_reconnects loaded 0%nat loaded_reachable
           eq_refl).
Defined.

Lemma retry_budget_witness :
  (reachable loaded /\ run exhausting loaded = Some exhausted
   /\ noOpen exhausting = true)
  /\ Z.of_nat (nextTimer exhausted) - Z.of_nat (nextTimer loaded)
     = reconnectAttempts exhausted - reconnectAttempts loaded
  /\ Z.of_nat (nextTimer exhausted) - Z.of_nat (nextTimer loaded)
     <= maxReconnectAttempts - reconnectAttempts loaded.
Proof.
  assert (Hrun : run exhausting loaded = Some exhausted)
    by (vm_compute; reflexivity).
  split; [split; [exact loaded_reachable | split; [exact Hrun | reflexivity]]|].
  exact (retry_budget loaded exhausting exhausted loaded_reachable Hrun
           eq_refl).
Defined.

Lemma pings_only_on_open_sockets_witness :
  step HeartbeatTick loaded = Some (heartbeat loaded)
  /\ (forall ws, HeartbeatTick = SocketOpen ws ->
        sent (heartbeat loaded) = sent loaded ++ [ws]
        /\ readyState ws (heartbeat loaded) = OPEN)
  /\ (HeartbeatTick = HeartbeatTick ->
      (exists k, wsRef loaded = Some k /\ readyState k loaded = OPEN
                 /\ sent (heartbeat loaded) = sent loaded ++ [k]
                 /\ readyState k (heartbeat loaded) = OPEN)
      \/ ((forall k, wsRef loaded = Some k -> readyState k loaded <> OPEN)
          /\ heartbeat loaded = loaded))
  /\ (pings HeartbeatTick = false -> sent (heartbeat loaded) = sent loaded).
Proof.
  split; [reflexivity|].
  exact (pings_only_on_open_sockets HeartbeatTick loaded (heartbeat loaded)
           eq_refl).
Defined.

Lemma loading_has_a_request_in_flight_witness :
  (reachable commanding /\ loading commanding = true)
  /\ exists i p,
       nth_error (inflight commanding) i = Some p
       /\ p <> AwaitSync
       /\ forall r h',
            step (Settle i r) commanding = Some h' -> loading h' = false.
Proof.
  split; [split; [exact commanding_reachable | reflexivity]|].
  exact (loading_has_a_request_in_flight commanding commanding_reachable
           eq_refl).
Defined.

Lemma error_stays_until_cleared_witness :
  exists h',
    (step (Settle 0%nat (Events [standup])) retrying = Some h'
     /\ clearsError (Settle 0%nat (Events [standup])) = false
     /\ errorShown retrying = true)
    /\ errorShown h' = true
    /\ error h' = Some "Network Error"
    /\ events h' = [standup].
Proof.
  eexists; split;
    [split; [vm_compute; reflexivity | split; reflexivity]|].
  destruct (error_stays_until_cleared (Settle 0%nat (Events [standup]))
              retrying _ eq_refl eq_refl eq_refl) as (Hv & Hk).
  destruct (Hk 0%nat [standup] eq_refl) as (E1 & E2).
  split; [|split; [exact E1 | exact E2]].
  match goal with |- ?b = true => destruct b eqn:E end; [reflexivity|].
  destruct (proj1 Hv E) as (k & Hk'); discriminate Hk'.
Defined.

Lemma syncing_lowered_only_by_witness :
  exists h',
    (step (Settle 0%nat (Rejected (IsError "Network Error"))) syncingNow
     = Some h'
     /\ syncing syncingNow = true /\ syncing h' = false)
    /\ ((exists ws frame,
           Settle 0%nat (Rejected (IsError "Network Error"))
           = SocketMessage ws frame
           /\ declares frame "sync_complete")
        \/ (exists k err,
              Settle 0%nat (Rejected (IsError "Network Error"))
              = Settle k (Rejected err)
              /\ nth_error (inflight syncingNow) k = Some AwaitSync)).
Proof.
  eexists; split;
    [split; [vm_compute; reflexivity | split; reflexivity]|].
  exact (syncing_lowered_only_by
           (Settle 0%nat (Rejected (IsError "Network Error"))) syncingNow _
           eq_refl eq_refl eq_refl).
Defined.

Lemma sync_complete_fetches_the_week_witness :
  exists h',
    (Js.get emptyPayloadMessage "type" = Some (Js.Str "sync_complete")
     /\ step (SocketMessage 0%nat (Some emptyPayloadMessage)) filling
        = Some h')
    /\ selectedDateRange filling = day
    /\ inflight h' = [AwaitFetch getWeekEvents]
    /\ selectedDateRange h' = day.
Proof.
  eexists; split; [split; [reflexivity | vm_compute; reflexivity]|].
  destruct (sync_complete_fetches_the_week emptyPayloadMessage 0%nat filling
              _ eq_refl eq_refl) as (_ & Hi & Hr & _).
  split; [reflexivity | split; [exact Hi | exact Hr]].
Defined.

Lemma command_round_trip_witness :
  (loading padded = false /\ blank (command padded) = true
   /\ step SendCommand padded = Some padded)
  /\ (loading typed = false /\ blank (command typed) = false)
  /\ exists h1,
       step SendCommand typed = Some h1
       /\ loading h1 = true
       /\ exists h2,
            step (Settle 0%nat (Rejected (IsError "Request timed out"))) h1
            = Some h2
            /\ events h2 = events typed
            /\ command h2 = "show my events for today"
            /\ error h2 = Some "Request timed out".
Proof.
  split; [split; [reflexivity | split; [reflexivity|]]|].
  { exact (proj1 (command_round_trip padded eq_refl) eq_refl). }
  split; [split; reflexivity|].
  destruct (proj2 (command_round_trip typed eq_refl) eq_refl)
    as (h1 & Hs & Hl & _ & _ & _ & Hrej).
  exists h1; split; [exact Hs | split; [exact Hl|]].
  destruct (Hrej (IsError "Request timed out"))
    as (h2 & Hs2 & He & Hc & Hm & _).
  exists h2; split; [exact Hs2 | split; [exact He | split; [exact Hc|]]].
  exact Hm.
Defined.

Lemma create_event_round_trip_witness :
  eventFormOpen filling = true
  /\ exists h1,
       step SubmitForm filling = Some h1
       /\ loading h1 = true
       /\ exists h2,
            step (Settle 0%nat (CreateResponse true None)) h1 = Some h2
            /\ eventFormOpen h2 = false
            /\ loading h2 = false
            /\ inflight h2
               = [AwaitFetch
                    (getEventsForRange (startOfDay tuesday)
                       (endOfDay tuesday))].
Proof.
  split; [reflexivity|].
  destruct (create_event_round_trip filling None eq_refl)
    as (h1 & Hs & Hl & (h2 & Hs2 & Hf & _ & Hl2 & Hi & _) & _).
  exists h1; split; [exact Hs | split; [exact Hl|]].
  exists h2; split; [exact Hs2 | split; [exact Hf | split; [exact Hl2|]]].
  exact Hi.
Defined.

End PageMoreFacts.
